(** * pysignald: the command client, the message reader and the chat dispatcher

    A shallow embedding of [src/main.py] and [src/types.py].

    - Byte strings ([bytes]) and text ([str]) are [string]s: lists of 8-bit
      characters.
    - A Python value that comes from, or goes to, JSON is a [json] value; a
      [dict] is an association list in insertion order with unique keys.
    - A Python call that can raise returns a [res]: [Ok v] or [Raise e].
    - The sockets are an explicit [world]: what every connection will answer
      and the log of what the client did on them.
    - The pieces of the Python runtime the client calls but does not define
      ([json.loads], [re.compile], [re.search], the user's handler functions)
      are the fields of the class [Runtime]. *)

From Stdlib Require Import List String Ascii ZArith Bool Lia Sorted Permutation.
Import ListNotations.
Local Open Scope string_scope.
Local Open Scope Z_scope.
Set Warnings "-register-all".

(** ** Exceptions and results *)

Inductive exn : Type :=
| ValueError (msg : string)
| JSONDecodeError
| UnicodeDecodeError
| KeyError (key : string)
| AttributeError
| TypeError
| UnboundLocalError (var : string)
| ConnectionResetError
| ReError.

Inductive res (A : Type) : Type :=
| Ok (a : A)
| Raise (e : exn).
Arguments Ok {A} a.
Arguments Raise {A} e.

Definition res_bind {A B} (r : res A) (k : A -> res B) : res B :=
  match r with
  | Ok a => k a
  | Raise e => Raise e
  end.

(** ** Python values that JSON can carry *)

(** A float is kept as its 64 IEEE-754 bits: the client only ever tests a
    float for truth. *)
Inductive json : Type :=
| JNull
| JBool (b : bool)
| JInt (z : Z)
| JFloat (bits : Z)
| JStr (s : string)
| JArr (items : list json)
| JObj (kv : list (string * json)).

Definition dict : Type := list (string * json).

Fixpoint dict_get (d : dict) (k : string) : option json :=
  match d with
  | [] => None
  | (k', v) :: rest => if String.eqb k' k then Some v else dict_get rest k
  end.

(** [d[k] = v]: an existing key keeps its place, a new one goes last. *)
Fixpoint dict_set (d : dict) (k : string) (v : json) : dict :=
  match d with
  | [] => [(k, v)]
  | (k', v') :: rest =>
      if String.eqb k' k then (k', v) :: rest else (k', v') :: dict_set rest k v
  end.

(** [v == s] for a [str] [s]: only an equal string is equal to a string. *)
Definition is_str (s : string) (v : json) : bool :=
  match v with
  | JStr s' => String.eqb s' s
  | _ => false
  end.

(** [bool(v)]. *)
Definition truthy (v : json) : bool :=
  match v with
  | JNull => false
  | JBool b => b
  | JInt z => negb (z =? 0)
  | JFloat bits => negb (Z.land bits (2 ^ 63 - 1) =? 0)
  | JStr s => negb (String.eqb s EmptyString)
  | JArr items => match items with [] => false | _ => true end
  | JObj kv => match kv with [] => false | _ => true end
  end.

(** [v.get(k, default)]: only a dict has [get]. *)
Definition py_get (v : json) (k : string) (default : json) : res json :=
  match v with
  | JObj d => Ok (match dict_get d k with Some x => x | None => default end)
  | _ => Raise AttributeError
  end.

(** [v[k]] for a [str] key [k]. *)
Definition py_getitem (v : json) (k : string) : res json :=
  match v with
  | JObj d => match dict_get d k with Some x => Ok x | None => Raise (KeyError k) end
  | _ => Raise TypeError
  end.

(** [b in a] on byte strings or text: substring test. *)
Fixpoint contains (needle hay : string) : bool :=
  if String.prefix needle hay then true
  else match hay with
       | EmptyString => false
       | String _ rest => contains needle rest
       end.

(** [k in v] for a [str] [k]. *)
Definition py_contains (k : string) (v : json) : res bool :=
  match v with
  | JObj d => Ok (match dict_get d k with Some _ => true | None => false end)
  | JArr items => Ok (existsb (is_str k) items)
  | JStr s => Ok (contains k s)
  | _ => Raise TypeError
  end.

(** [for x in v]: a list gives its items, a dict its keys, text its
    characters. *)
Definition py_iter (v : json) : res (list json) :=
  match v with
  | JArr items => Ok items
  | JObj d => Ok (map (fun p => JStr (fst p)) d)
  | JStr s => Ok (map (fun c => JStr (String c EmptyString)) (list_ascii_of_string s))
  | _ => Raise TypeError
  end.

Definition newline : ascii := Ascii.ascii_of_nat 10.

(** [b.split(b"\n")], with the piece being read in [cur]. *)
Fixpoint split_from (cur : string) (b : string) : list string :=
  match b with
  | EmptyString => [cur]
  | String c rest =>
      if Ascii.eqb c newline then cur :: split_from EmptyString rest
      else split_from (cur ++ String c EmptyString) rest
  end.

Definition split_newline (b : string) : list string := split_from EmptyString b.

(** [l.sort(key=key)]: Python's sort is stable. Each item goes in front of the
    first already placed item whose key is not smaller, so items with equal
    keys keep the order they had. *)
Fixpoint insert_by_key {A} (key : A -> Z) (x : A) (l : list A) : list A :=
  match l with
  | [] => [x]
  | y :: rest =>
      if key x <=? key y then x :: y :: rest
      else y :: insert_by_key key x rest
  end.

Fixpoint list_sort {A} (key : A -> Z) (l : list A) : list A :=
  match l with
  | [] => []
  | x :: rest => insert_by_key key x (list_sort key rest)
  end.

Notation "'let?' x ':=' r 'in' k" := (res_bind r (fun x => k))
  (at level 10, x name, r at level 100, k at level 200).

(** ** src/types.py *)

Module types.

Record Attachment : Type := {
  content_type : json;
  id : json;
  size : json;
  stored_filename : json
}.

(** The attribute types of the source are annotations only: every attribute
    holds whatever value the constructor was given. *)
Record Message : Type := {
  username : json;
  source : json;
  text : json;
  source_device : json;
  timestamp : json;
  timestamp_iso : json;
  attachments : list Attachment;
  group_info : json;
  group_list : list json
}.

(** The declared defaults of [Message], taken by an attribute only when the
    constructor is not given the argument. *)
Definition default_source_device : json := JInt 0.
Definition default_group_list : list json := [].

End types.

(** ** The runtime the client runs on *)

(** What a chat handler returns: a tuple, or any other value. *)
Inductive pyret : Type :=
| RTuple (items : list json)
| RValue (v : json).

Class Runtime : Type := {
  regex : Type;
  re_match : Type;
  func : Type;
  (** [json.loads(b)] for bytes [b] *)
  json_loads_bytes : string -> res json;
  (** [json.loads(b.decode())] for bytes [b] *)
  json_loads_str : string -> res json;
  (** [re.compile(p, re.I)] *)
  re_compile : string -> res regex;
  (** [re.search(r, text)]: a match object, or [None] *)
  re_search : regex -> string -> option re_match;
  (** [f(message, match)] for a registered handler [f] *)
  call : func -> types.Message -> re_match -> res pyret
}.

(** Generators: the items yielded, the lines printed between them, and the
    exception that ends the iteration. *)
Inductive gen (A : Type) : Type :=
| Yield (a : A) (rest : gen A)
| Prints (s : string) (rest : gen A)
| GRaise (e : exn).
Arguments Yield {A} a rest.
Arguments Prints {A} s rest.
Arguments GRaise {A} e.

(** The items a generator yields, in order. *)
Fixpoint yielded {A} (g : gen A) : list A :=
  match g with
  | Yield a rest => a :: yielded rest
  | Prints _ rest => yielded rest
  | GRaise _ => []
  end.

(** The lines it prints, in order. *)
Fixpoint printed {A} (g : gen A) : list string :=
  match g with
  | Yield _ rest => printed rest
  | Prints s rest => s :: printed rest
  | GRaise _ => []
  end.

(** The exception that ends it. *)
Fixpoint ending {A} (g : gen A) : exn :=
  match g with
  | Yield _ rest => ending rest
  | Prints _ rest => ending rest
  | GRaise e => e
  end.

(** ** src/main.py *)

Module main.

(** [readlines(s)]: [stream] is what the peer sends before it closes the
    connection, [buf] the bytes of the line being read. *)
Fixpoint readlines (buf : string) (stream : string) : gen string :=
  match stream with
  | EmptyString => GRaise ConnectionResetError
  | String char rest =>
      if Ascii.eqb char newline then Yield buf (readlines EmptyString rest)
      else readlines (buf ++ String char EmptyString) rest
  end.

Section Client.
Context {RT : Runtime}.

Definition registration : Type := (Z * regex * func)%type.

(** The client object. *)
Record Signal : Type := {
  username : string;
  socket_path : string + (string * Z);
  _chat_handlers : list registration
}.

Definition __init__ (username : string) (socket_path : string + (string * Z)) : Signal :=
  {| username := username; socket_path := socket_path; _chat_handlers := [] |}.

(** What a connection brings: the identifier [_get_id] draws for the command
    sent on it, and the bytes the peer has for the client once the client has
    written. *)
Record conn : Type := {
  rand_id : string;
  response : string
}.

Inductive event : Type :=
| EvConnect (s : nat)
| EvRecv (s : nat) (bufsize : nat)
| EvSend (s : nat) (payload : dict)
| EvPrint (line : string)
| EvSearch (r : registration).

(** The sockets: [daemon n] is what the [n]-th connection brings, [opened]
    counts the connections made, [log] is what the client has done so far,
    oldest first. *)
Record world : Type := {
  daemon : nat -> conn;
  opened : nat;
  log : list event
}.

(** The world with more written in its log. *)
Definition logged (w : world) (es : list event) : world :=
  {| daemon := daemon w; opened := opened w; log := log w ++ es |}.

Definition M (A : Type) : Type := world -> res A * world.

Definition ret {A} (a : A) : M A := fun w => (Ok a, w).
Definition raise {A} (e : exn) : M A := fun w => (Raise e, w).
Definition bind {A B} (m : M A) (k : A -> M B) : M B :=
  fun w => match m w with
           | (Ok a, w') => k a w'
           | (Raise e, w') => (Raise e, w')
           end.
Definition lift {A} (r : res A) : M A := fun w => (r, w).
Definition emit (e : event) : M unit :=
  fun w => (Ok tt, logged w [e]).

Notation "x <- m ;; k" := (bind m (fun x => k))
  (at level 61, m at next level, right associativity).
Notation "m ;;; k" := (bind m (fun _ => k))
  (at level 61, right associativity).

(** [_get_id] and [_get_socket]: the socket is its connection number. *)
Definition _get_socket (self : Signal) : M nat :=
  fun w => (Ok (opened w),
            {| daemon := daemon w; opened := S (opened w);
               log := log w ++ [EvConnect (opened w)] |}).

Definition _get_id (self : Signal) (s : nat) : M string :=
  fun w => (Ok (rand_id (daemon w s)), w).

(** [s.recv(bufsize)] after the command is written: at most [bufsize] of the
    bytes the peer has. *)
Definition recv (s : nat) (bufsize : nat) : M string :=
  fun w => (Ok (String.substring 0 bufsize (response (daemon w s))),
            logged w [EvRecv s bufsize]).

(** The error of line 70, the protocol error of the spec. *)
Definition ProtocolError : exn := ValueError "unexpected error occurred".

(** Lines 60 to 72: the scan of the response, [None] when it falls off the
    end. *)
Fixpoint scan (msg_id : string) (lines : list string) : res json :=
  match lines with
  | [] => Ok JNull
  | line :: rest =>
      if negb (contains msg_id line) then scan msg_id rest
      else
        match json_loads_bytes line with
        | Raise e => Raise e
        | Ok data =>
            match py_get data "id" JNull with
            | Raise e => Raise e
            | Ok i =>
                if negb (is_str msg_id i) then scan msg_id rest
                else
                  match py_getitem data "type" with
                  | Raise e => Raise e
                  | Ok t =>
                      if is_str "unexpected_error" t then Raise ProtocolError
                      else Ok data
                  end
            end
        end
  end.

Definition _send_command (self : Signal) (payload : dict) (block : bool) : M json :=
  s <- _get_socket self ;;
  msg_id <- _get_id self s ;;
  let payload := dict_set payload "id" (JStr msg_id) in
  emit (EvRecv s 1024) ;;;
  emit (EvSend s payload) ;;;
  if negb block then ret JNull
  else
    response <- recv s (4 * 1024) ;;
    lift (scan msg_id (split_newline response)).

Definition register (self : Signal) (voice : json) : M unit :=
  let payload := [("type", JStr "register"); ("username", JStr (username self));
                  ("voice", voice)] in
  _send_command self payload false ;;; ret tt.

Definition verify (self : Signal) (code : json) : M unit :=
  let payload := [("type", JStr "verify"); ("username", JStr (username self));
                  ("code", code)] in
  _send_command self payload false ;;; ret tt.

Definition get_group_list (self : Signal) (block : bool) : M json :=
  let payload := [("type", JStr "list_groups"); ("username", JStr (username self))] in
  data <- _send_command self payload block ;;
  ret data.



Definition send_message (self : Signal) (recipient : json) (text : json) (block : bool) : M unit :=
  let payload := [("type", JStr "send"); ("username", JStr (username self));
                  ("recipientAddress", recipient); ("messageBody", text)] in
  _send_command self payload block ;;; ret tt.

Definition send_group_message (self : Signal) (recipient_group_id : json) (text : json) (block : bool) : M unit :=
  let payload := [("type", JStr "send"); ("username", JStr (username self));
                  ("recipientGroupId", recipient_group_id); ("messageBody", text)] in
  _send_command self payload block ;;; ret tt.

(** *** receive_messages *)

Definition make_attachment (attachment : json) : res types.Attachment :=
  let? content_type := py_getitem attachment "contentType" in
  let? id := py_getitem attachment "id" in
  let? size := py_getitem attachment "size" in
  let? stored_filename := py_getitem attachment "storedFilename" in
  Ok {| types.content_type := content_type; types.id := id; types.size := size;
        types.stored_filename := stored_filename |}.

Fixpoint make_attachments (l : list json) : res (list types.Attachment) :=
  match l with
  | [] => Ok []
  | attachment :: rest =>
      let? a := make_attachment attachment in
      let? others := make_attachments rest in
      Ok (a :: others)
  end.

(** Lines 112 to 132, with [message] already rebound to [message["data"]]. *)
Definition make_message (message : json) : res types.Message :=
  let? data_message := py_get message "dataMessage" (JObj []) in
  let? username := py_get message "username" (JStr EmptyString) in
  let? source := py_get message "source" (JStr EmptyString) in
  let? text := py_get data_message "body" (JStr EmptyString) in
  let? source_device := py_get message "sourceDevice" JNull in
  let? timestamp := py_get data_message "timestamp" JNull in
  let? timestamp_iso := py_get message "timestampISO" JNull in
  let? group_info := py_get data_message "group" (JObj []) in
  let? items := py_get data_message "attachments" (JArr []) in
  let? items := py_iter items in
  let? attachments := make_attachments items in
  Ok {| types.username := username; types.source := source; types.text := text;
        types.source_device := source_device; types.timestamp := timestamp;
        types.timestamp_iso := timestamp_iso; types.attachments := attachments;
        types.group_info := group_info;
        types.group_list := types.default_group_list |}.

(** One turn of the loop body from line 104 on. The variable [message] is
    [None] while it has never been assigned; each outcome carries the value
    [message] is left with. *)
Inductive turn : Type :=
| Continue (message : json)
| Yields (m : types.Message) (message : json)
| Fails (e : exn).

Definition receive_turn (message : option json) : turn :=
  match message with
  | None => Fails (UnboundLocalError "message")
  | Some message =>
      match py_get message "type" JNull with
      | Raise e => Fails e
      | Ok t =>
          if negb (is_str "message" t) then Continue message
          else
            match py_getitem message "data" with
            | Raise e => Fails e
            | Ok data =>
                match py_contains "typing" data with
                | Raise e => Fails e
                | Ok true => Continue message
                | Ok false =>
                    match make_message data with
                    | Raise e => Fails e
                    | Ok m => Yields m data
                    end
                end
            end
      end
  end.

(** Lines 97 to 132: the loop over the lines, [message] being the value the
    variable has when the line arrives. *)
Fixpoint receive_loop (message : option json) (lines : gen string) : gen types.Message :=
  let body (message : option json) (rest : gen string) :=
    match receive_turn message with
    | Continue message => receive_loop (Some message) rest
    | Yields m message => Yield m (receive_loop (Some message) rest)
    | Fails e => GRaise e
    end in
  match lines with
  | GRaise e => GRaise e
  | Prints s rest => Prints s (receive_loop message rest)
  | Yield line rest =>
      match json_loads_str line with
      | Ok v => body (Some v) rest
      | Raise JSONDecodeError => Prints "Invalid JSON" (body message rest)
      | Raise e => GRaise e
      end
  end.

Definition receive_messages (self : Signal) : M (gen types.Message) :=
  s <- _get_socket self ;;
  emit (EvSend s [("type", JStr "subscribe"); ("username", JStr (username self))]) ;;;
  stream <- (fun w => (Ok (response (daemon w s)), w)) ;;
  ret (receive_loop None (readlines EmptyString stream)).

(** *** chat_handler *)

(** The [regex] argument: a pattern to compile, or a compiled one. *)
Inductive pattern : Type :=
| Source (p : string)
| Compiled (r : regex).

Definition default_order : Z := 100.

Definition order_of (r : registration) : Z := fst (fst r).

(** [chat_handler(regex, order)(func)]: the client with the handler
    registered. *)
Definition chat_handler (self : Signal) (regex : pattern) (order : Z) (func : func) : res Signal :=
  let? regex := match regex with
                | Compiled r => Ok r
                | Source p => re_compile p
                end in
  Ok {| username := username self; socket_path := socket_path self;
        _chat_handlers :=
          list_sort order_of (_chat_handlers self ++ [(order, regex, func)]) |}.

(** *** run_chat *)

(** Lines 225 to 228. *)
Definition unpack_reply (reply : pyret) : res (json * json) :=
  match reply with
  | RTuple [stop; reply] => Ok (stop, reply)
  | RTuple [] => Raise (ValueError "not enough values to unpack (expected 2, got 0)")
  | RTuple [_] => Raise (ValueError "not enough values to unpack (expected 2, got 1)")
  | RTuple _ => Raise (ValueError "too many values to unpack (expected 2)")
  | RValue reply => Ok (JBool true, reply)
  end.

(** Lines 230 to 236. *)
Definition send_reply (self : Signal) (message : types.Message) (reply : json) : M unit :=
  group_id <- lift (py_get (types.group_info message) "groupId" JNull) ;;
  if truthy group_id
  then send_group_message self group_id reply false
  else send_message self (types.source message) reply true.

(** Lines 215 to 240: the loop over the registrations. *)
Fixpoint dispatch (self : Signal) (message : types.Message) (handlers : list registration) : M unit :=
  match handlers with
  | [] => ret tt
  | (order, regex, func) :: rest =>
      emit (EvSearch (order, regex, func)) ;;;
      match types.text message with
      | JStr text =>
          match re_search regex text with
          | None => dispatch self message rest
          | Some match_ =>
              match call func message match_ with
              | Raise _ => dispatch self message rest
              | Ok reply =>
                  p <- lift (unpack_reply reply) ;;
                  send_reply self message (snd p) ;;;
                  if truthy (fst p) then ret tt
                  else dispatch self message rest
              end
          end
      | _ => raise TypeError
      end
  end.

(** Lines 212 to 240: what is done for one message. *)
Definition handle_message (self : Signal) (message : types.Message) : M unit :=
  if negb (truthy (types.text message)) then ret tt
  else dispatch self message (_chat_handlers self).

(** Lines 211 to 240: the loop over the messages. *)
Fixpoint run_loop (self : Signal) (messages : gen types.Message) : M unit :=
  match messages with
  | GRaise e => raise e
  | Prints s rest => emit (EvPrint s) ;;; run_loop self rest
  | Yield message rest => handle_message self message ;;; run_loop self rest
  end.

Definition run_chat (self : Signal) : M unit :=
  messages <- receive_messages self ;;
  run_loop self messages.

(** *** What the statements below speak of *)

(** The registrations searched, and the payloads written, in a log. *)
Fixpoint searches (l : list event) : list registration :=
  match l with
  | [] => []
  | EvSearch r :: rest => r :: searches rest
  | _ :: rest => searches rest
  end.

Fixpoint sent (l : list event) : list dict :=
  match l with
  | [] => []
  | EvSend _ payload :: rest => payload :: sent rest
  | _ :: rest => sent rest
  end.

(** The reads made: the socket and the size asked for. *)
Fixpoint reads (l : list event) : list (nat * nat) :=
  match l with
  | [] => []
  | EvRecv s bufsize :: rest => (s, bufsize) :: reads rest
  | _ :: rest => reads rest
  end.

(** The scan of [_send_command] passes over a line by one of its two
    [continue]s: the line does not hold the identifier, or it is a JSON
    object whose [id] is not the identifier. *)
Definition passed_over (msg_id : string) (line : string) : bool :=
  negb (contains msg_id line)
  || match json_loads_bytes line with
     | Ok (JObj d) =>
         negb (is_str msg_id (match dict_get d "id" with Some i => i | None => JNull end))
     | _ => false
     end.

(** A registration that sends nothing for a message: its pattern is not
    found in the text, or its handler raises. *)
Definition falls_through (message : types.Message) (r : registration) : bool :=
  match types.text message with
  | JStr text =>
      match re_search (snd (fst r)) text with
      | None => true
      | Some match_ =>
          match call (snd r) message match_ with
          | Raise _ => true
          | Ok _ => false
          end
      end
  | _ => false
  end.

(** A program that registers handlers one after the other: a registration
    whose pattern does not compile raises to its caller and leaves the client
    as it was. *)
Fixpoint register_all (self : Signal) (calls : list (pattern * Z * func)) : Signal :=
  match calls with
  | [] => self
  | (regex, order, func) :: rest =>
      match chat_handler self regex order func with
      | Ok self' => register_all self' rest
      | Raise _ => register_all self rest
      end
  end.


End Client.
End main.

Notation "x <- m ;; k" := (main.bind m (fun x => k))
  (at level 61, m at next level, right associativity).
Notation "m ;;; k" := (main.bind m (fun _ => k))
  (at level 61, right associativity).

(** ** A runtime to run the client on

    A decoder for the JSON texts made of ASCII characters, integers, strings
    with the one-letter escapes, arrays, objects and the three literals. On
    these texts it gives what [json.loads] gives; a text outside this fragment
    (a float, a [\u] escape, a byte above 127) is refused here. *)

Module demo.

Definition is_ws (c : ascii) : bool :=
  match nat_of_ascii c with
  | 32%nat | 9%nat | 10%nat | 13%nat => true
  | _ => false
  end.

Fixpoint skip_ws (s : string) : string :=
  match s with
  | String c rest => if is_ws c then skip_ws rest else s
  | EmptyString => s
  end.

Definition digit_of (c : ascii) : option Z :=
  let n := nat_of_ascii c in
  if ((48 <=? n) && (n <=? 57))%nat then Some (Z.of_nat (n - 48)) else None.

Fixpoint parse_digits (acc : Z) (s : string) : Z * string :=
  match s with
  | String c rest =>
      match digit_of c with
      | Some d => parse_digits (acc * 10 + d) rest
      | None => (acc, s)
      end
  | EmptyString => (acc, s)
  end.

Definition starts_fraction (s : string) : bool :=
  match s with
  | String "." _ | String "e" _ | String "E" _ => true
  | _ => false
  end.

(** An integer without its sign: [0], or digits that do not start with 0. *)
Definition parse_nat (s : string) : option (Z * string) :=
  match s with
  | String c rest =>
      match digit_of c with
      | Some d =>
          let (n, rest') := if d =? 0 then (0, rest) else parse_digits d rest in
          if starts_fraction rest' then None else Some (n, rest')
      | None => None
      end
  | EmptyString => None
  end.

Definition unescape (c : ascii) : option ascii :=
  match c with
  | "034"%char => Some "034"%char
  | "\"%char => Some "\"%char
  | "/"%char => Some "/"%char
  | "b"%char => Some (ascii_of_nat 8)
  | "f"%char => Some (ascii_of_nat 12)
  | "n"%char => Some (ascii_of_nat 10)
  | "r"%char => Some (ascii_of_nat 13)
  | "t"%char => Some (ascii_of_nat 9)
  | _ => None
  end.

(** The rest of a string after its opening quote. *)
Fixpoint parse_string (acc : string) (s : string) : option (string * string) :=
  match s with
  | EmptyString => None
  | String c rest =>
      if Ascii.eqb c "034"%char then Some (acc, rest)
      else if Ascii.eqb c "\"%char then
        match rest with
        | String e rest' =>
            match unescape e with
            | Some x => parse_string (acc ++ String x EmptyString) rest'
            | None => None
            end
        | EmptyString => None
        end
      else if ((nat_of_ascii c <? 32) || (127 <? nat_of_ascii c))%nat then None
      else parse_string (acc ++ String c EmptyString) rest
  end.

Fixpoint parse_value (fuel : nat) (s : string) : option (json * string) :=
  match fuel with
  | O => None
  | S fuel =>
      match skip_ws s with
      | String "n" (String "u" (String "l" (String "l" rest))) => Some (JNull, rest)
      | String "t" (String "r" (String "u" (String "e" rest))) => Some (JBool true, rest)
      | String "f" (String "a" (String "l" (String "s" (String "e" rest)))) =>
          Some (JBool false, rest)
      | String "034" rest =>
          match parse_string EmptyString rest with
          | Some (str, rest') => Some (JStr str, rest')
          | None => None
          end
      | String "-" rest =>
          match parse_nat rest with
          | Some (n, rest') => Some (JInt (- n), rest')
          | None => None
          end
      | String "[" rest =>
          match skip_ws rest with
          | String "]" rest' => Some (JArr [], rest')
          | _ =>
              match parse_items fuel rest with
              | Some (items, rest') => Some (JArr items, rest')
              | None => None
              end
          end
      | String "{" rest =>
          match skip_ws rest with
          | String "}" rest' => Some (JObj [], rest')
          | _ =>
              match parse_members fuel [] rest with
              | Some (d, rest') => Some (JObj d, rest')
              | None => None
              end
          end
      | other =>
          match parse_nat other with
          | Some (n, rest') => Some (JInt n, rest')
          | None => None
          end
      end
  end

with parse_items (fuel : nat) (s : string) : option (list json * string) :=
  match fuel with
  | O => None
  | S fuel =>
      match parse_value fuel s with
      | Some (v, rest) =>
          match skip_ws rest with
          | String "]" rest' => Some ([v], rest')
          | String "," rest' =>
              match parse_items fuel rest' with
              | Some (vs, rest'') => Some (v :: vs, rest'')
              | None => None
              end
          | _ => None
          end
      | None => None
      end
  end

with parse_members (fuel : nat) (d : dict) (s : string) : option (dict * string) :=
  match fuel with
  | O => None
  | S fuel =>
      match skip_ws s with
      | String "034" rest =>
          match parse_string EmptyString rest with
          | Some (k, rest1) =>
              match skip_ws rest1 with
              | String ":" rest2 =>
                  match parse_value fuel rest2 with
                  | Some (v, rest3) =>
                      match skip_ws rest3 with
                      | String "}" rest4 => Some (dict_set d k v, rest4)
                      | String "," rest4 => parse_members fuel (dict_set d k v) rest4
                      | _ => None
                      end
                  | None => None
                  end
              | _ => None
              end
          | None => None
          end
      | _ => None
      end
  end.

Definition json_loads (s : string) : res json :=
  match parse_value (S (String.length s)) s with
  | Some (v, rest) =>
      match skip_ws rest with
      | EmptyString => Ok v
      | _ => Raise JSONDecodeError
      end
  | None => Raise JSONDecodeError
  end.

(** JSON text is written here with an apostrophe for each double quote. *)
Fixpoint js (s : string) : string :=
  match s with
  | EmptyString => EmptyString
  | String c rest => String (if Ascii.eqb c "'"%char then "034"%char else c) (js rest)
  end.

(** The handlers of the examples: one that answers with a string, one that
    answers with [(False, string)] so that matching goes on, and one that
    raises. *)
Inductive handler : Type :=
| Answer (reply : string)
| AnswerAndGoOn (reply : string)
| Broken.

(** Patterns are plain words, found by [contains]; on such patterns and text
    in the same case that is what [re.search] finds. *)
#[export] Instance runtime : Runtime := {|
  regex := string;
  re_match := unit;
  func := handler;
  json_loads_bytes := json_loads;
  json_loads_str := json_loads;
  re_compile := fun p => Ok p;
  re_search := fun r text => if contains r text then Some tt else None;
  call := fun f _ _ =>
    match f with
    | Answer reply => Ok (RValue (JStr reply))
    | AnswerAndGoOn reply => Ok (RTuple [JBool false; JStr reply])
    | Broken => Raise (ValueError "broken handler")
    end
|}.

(** A daemon that answers every connection alike, and the world before the
    client has done anything. *)
Definition fresh (answers : nat -> main.conn) : main.world :=
  {| main.daemon := answers; main.opened := 0; main.log := [] |}.

Definition client (handlers : list main.registration) : main.Signal :=
  {| main.username := "+15550000000";
     main.socket_path := inl "/var/run/signald/signald.sock";
     main._chat_handlers := handlers |}.

Definition nl : string := String newline EmptyString.

(** The inbound line of the spec's scenario, and the message it decodes to. *)
Definition ping_line : string :=
  js "{'type':'message','data':{'username':'u','source':'+15551234567','dataMessage':{'body':'ping','timestamp':42}}}".

Definition ping_message (group_info : json) : types.Message :=
  {| types.username := JStr "u"; types.source := JStr "+15551234567";
     types.text := JStr "ping"; types.source_device := JNull;
     types.timestamp := JInt 42; types.timestamp_iso := JNull;
     types.attachments := []; types.group_info := group_info;
     types.group_list := [] |}.

(** An event whose data is itself shaped like an event. *)
Definition nested_line : string :=
  js "{'type':'message','data':{'type':'message','data':{'source':'x','dataMessage':{'body':'again'}}}}".

(** A daemon whose first connection carries [stream] and whose later ones
    answer the identifier [abcdefghij] with [answer]. *)
Definition daemon_of (stream answer : string) (n : nat) : main.conn :=
  match n with
  | O => {| main.rand_id := "abcdefghij"; main.response := stream |}
  | S _ => {| main.rand_id := "abcdefghij"; main.response := answer |}
  end.

(** A daemon that has [answer] for the identifier [abcdefghij] on every
    connection. *)
Definition answering (answer : string) : main.world :=
  fresh (fun _ => {| main.rand_id := "abcdefghij"; main.response := answer |}).

(** A message whose group information has an empty [groupId]. *)
Definition empty_group_line : string :=
  js "{'type':'message','data':{'source':'+15551234567','dataMessage':{'body':'ping','group':{'groupId':''}}}}".

Definition ok_answer : string :=
  (js "{'id':'abcdefghij','type':'ok'}" ++ nl)%string.

Definition error_answer : string :=
  (js "{'id':'abcdefghij','type':'unexpected_error'}" ++ nl)%string.

(** Two registrations, a client with the first and one with both, and the
    message of [ping_line]. *)
Definition broken : main.registration := (10, "ping", Broken).
Definition pong : main.registration := (20, "pi", Answer "pong").
Definition bot1 : main.Signal := client [broken].
Definition bot3 : main.Signal := client [pong].
Definition ping : types.Message := ping_message (JObj []).

(** The daemon answers [ok] to every command, or an unexpected error. *)
Definition obliging : main.world := answering ok_answer.
Definition failing : main.world := answering error_answer.

(** The subscription carries [stream]; commands are answered [ok]. *)
Definition inbox (stream : string) : main.world :=
  fresh (daemon_of stream ok_answer).

(** Four registrations in the order a program makes them. *)
Definition calls : list (main.pattern * Z * handler) :=
  [(main.Source "b", 100, Answer "B"); (main.Source "never", 200, Broken);
   (main.Source "a", 100, Answer "A"); (main.Source "first", 10, Broken)].

Definition registered : main.Signal :=
  main.register_all (main.__init__ "+15550000000" (inl "/run/signald.sock")) calls.

Definition list_groups : dict :=
  [("type", JStr "list_groups"); ("username", JStr "+15550000000")].

End demo.



(** ** A second runtime

    Handlers here are their own outcome, so that any answer a handler can
    give can be tried; and a line with the byte 255, which no UTF-8 text
    has, cannot be decoded. *)

Module lab.

Fixpoint has_byte_255 (b : string) : bool :=
  match b with
  | EmptyString => false
  | String c rest => Ascii.eqb c (ascii_of_nat 255) || has_byte_255 rest
  end.

Definition decode_and_load (b : string) : res json :=
  if has_byte_255 b then Raise UnicodeDecodeError else demo.json_loads b.

Definition runtime : Runtime := {|
  regex := string;
  re_match := unit;
  func := res pyret;
  json_loads_bytes := demo.json_loads;
  json_loads_str := decode_and_load;
  re_compile := fun p => Ok p;
  re_search := fun r text => if contains r text then Some tt else None;
  call := fun f _ _ => f
|}.

Definition message_with_text (text : json) : types.Message :=
  {| types.username := JStr "u"; types.source := JStr "+15551234567";
     types.text := text; types.source_device := JNull;
     types.timestamp := JNull; types.timestamp_iso := JNull;
     types.attachments := []; types.group_info := JObj [];
     types.group_list := [] |}.

Definition client (handlers : list (main.registration (RT := runtime)))
  : main.Signal (RT := runtime) :=
  {| main.username := "+15550000000";
     main.socket_path := inr ("127.0.0.1", 15432);
     main._chat_handlers := handlers |}.

(** A daemon that has [answer] for the identifier [abcdefghij] on every
    connection. *)
Definition answering (answer : string) : main.world (RT := runtime) :=
  {| main.daemon := fun _ => {| main.rand_id := "abcdefghij"; main.response := answer |};
     main.opened := 0; main.log := [] |}.

(** Registrations: a handler that answers and lets matching go on, one that
    answers and stops, one that returns three items. *)
Definition more : main.registration (RT := runtime) :=
  (10, "pi", Ok (RTuple [JBool false; JStr "one"])).
Definition last : main.registration (RT := runtime) :=
  (20, "ping", Ok (RValue (JStr "two"))).
Definition triple : main.registration (RT := runtime) :=
  (30, "ng", Ok (RTuple [JBool true; JStr "a"; JStr "b"])).
Definition deaf : main.registration (RT := runtime) :=
  (5, "hello", Ok (RValue (JStr "never"))).

(** Lines of the subscription. *)
Definition bare_event : string :=
  demo.js "{'type':'message','data':{'source':'x'}}".
Definition receipt : string := demo.js "{'type':'receipt'}".
Definition typing : string :=
  demo.js "{'type':'message','data':{'typing':{'action':'STARTED'}}}".
Definition short_attachment : string :=
  demo.js "{'type':'message','data':{'dataMessage':{'attachments':[{'id':'1'}]}}}".

End lab.

(** ** Framing *)

(** Whether a byte string holds a newline, and how many. *)
Fixpoint has_newline (b : string) : bool :=
  match b with
  | EmptyString => false
  | String c rest => Ascii.eqb c newline || has_newline rest
  end.

Fixpoint count_newlines (b : string) : nat :=
  match b with
  | EmptyString => O
  | String c rest =>
      if Ascii.eqb c newline then S (count_newlines rest) else count_newlines rest
  end.

(** What a peer writes for a sequence of lines: each line and its newline. *)
Fixpoint frame (lines : list string) : string :=
  match lines with
  | [] => EmptyString
  | line :: rest => line ++ String newline (frame rest)
  end.

(** The value under a key, or a default: what [d.get(k, default)] gives. *)
Definition value_or (o : option json) (default : json) : json :=
  match o with
  | Some v => v
  | None => default
  end.

(** The four keys every attachment must have. *)
Definition attachment_keys : list string :=
  ["contentType"; "id"; "size"; "storedFilename"].

(** The socket an event happens on, if it happens on one. *)
Definition socket_of {RT : Runtime} (e : main.event) : option nat :=
  match e with
  | main.EvConnect s | main.EvRecv s _ | main.EvSend s _ => Some s
  | _ => None
  end.

(** Every socket event of the list is on a connection made after the
    [n]-th. *)
Definition after_connection {RT : Runtime} (n : nat) (l : list main.event) : Prop :=
  Forall (fun e => match socket_of e with
                   | Some s => (n < s)%nat
                   | None => True
                   end) l.

(** From one world to a later one: the daemon is the same, no connection is
    forgotten, and what was logged since is on connections after the
    [n]-th. *)
Definition later {RT : Runtime} (n : nat) (w w' : main.world) : Prop :=
  main.daemon w' = main.daemon w
  /\ (main.opened w <= main.opened w')%nat
  /\ exists l, main.log w' = (main.log w ++ l)%list /\ after_connection n l.

(** Line 36, the body of [_get_id]: [random.choice(seq)] is the item of [seq]
    at the index the generator draws below its length, and the identifier is
    ten such choices; [draws i] is what the generator gives for the [i]-th. *)
Definition id_alphabet : string := "abcdefghijklmnopqrstuvwxyz0123456789".

Definition random_choice (seq : string) (draw : nat) : ascii :=
  match String.get (draw mod String.length seq) seq with
  | Some c => c
  | None => Ascii.zero
  end.

Definition _get_id_of (draws : nat -> nat) : string :=
  string_of_list_ascii
    (map (fun i => random_choice id_alphabet (draws i)) (List.seq 0 10)).

(** A generator that yields the items of a list and ends with [e]. *)
Definition yields_then {A} (items : list A) (e : exn) : gen A :=
  fold_right Yield (GRaise e) items.

(** * Properties *)

Local Open Scope list_scope.

(** ** The stable sort *)

Section Sorting.
Context {A : Type} (key : A -> Z).

Definition by_key (a b : A) : Prop := key a <= key b.









End Sorting.

Import main.

(** ** The command client *)

Section CommandClient.
Context {RT : Runtime}.

(** What a call of [_send_command] comes to: one new connection, the flush,
    the command with its identifier and, only when blocking, one read whose
    lines are scanned. *)
Lemma _send_command_run (self : Signal) (payload : dict) (block : bool) (w : world) :
  let s := opened w in
  let msg_id := rand_id (daemon w s) in
  let command := dict_set payload "id" (JStr msg_id) in
  _send_command self payload block w =
  if block
  then (scan msg_id (split_newline (String.substring 0 (4 * 1024) (response (daemon w s)))),
        {| daemon := daemon w; opened := S s;
           log := log w ++ [EvConnect s; EvRecv s 1024; EvSend s command;
                            EvRecv s (4 * 1024)] |})
  else (Ok JNull,
        {| daemon := daemon w; opened := S s;
           log := log w ++ [EvConnect s; EvRecv s 1024; EvSend s command] |}).
Proof.
  destruct block; unfold _send_command, bind, _get_socket, _get_id, emit, recv,
    lift, ret, logged; cbn [negb daemon opened log];
    repeat rewrite <- app_assoc; reflexivity.
Qed.

Lemma scan_passed_over (msg_id line : string) (rest : list string) :
  passed_over msg_id line = true ->
  scan msg_id (line :: rest) = scan msg_id rest.
Proof.
  unfold passed_over. cbn [scan].
  destruct (contains msg_id line); cbn [negb orb]; [|reflexivity].
  destruct (json_loads_bytes line) as [data|e]; [|discriminate].
  destruct data; try discriminate.
  cbn [py_get]. intros ->. reflexivity.
Qed.

Lemma scan_skips (msg_id : string) (pre rest : list string) :
  Forall (fun line => passed_over msg_id line = true) pre ->
  scan msg_id (pre ++ rest) = scan msg_id rest.
Proof.
  induction 1 as [|line pre H _ IH]; [reflexivity|].
  rewrite <- app_comm_cons, scan_passed_over by exact H. exact IH.
Qed.



(** Without blocking nothing is ever raised and no response is read. *)
Lemma _send_command_nonblocking (self : Signal) (payload : dict) (w : world) :
  fst (_send_command self payload false w) = Ok JNull
  /\ log (snd (_send_command self payload false w))
     = log w ++ [EvConnect (opened w); EvRecv (opened w) 1024;
                 EvSend (opened w)
                   (dict_set payload "id" (JStr (rand_id (daemon w (opened w)))))].
Proof. rewrite _send_command_run. split; reflexivity. Qed.

(** C3, as the code has it. [register] and [verify] send their command
    without blocking: each returns once the command is written, reads no
    response and raises nothing. *)
Theorem C3_register_verify_do_not_block (self : Signal) (voice code : json) (w : world) :
  let s := opened w in
  let msg_id := JStr (rand_id (daemon w s)) in
  register self voice w =
    (Ok tt,
     {| daemon := daemon w; opened := S s;
        log := log w ++ [EvConnect s; EvRecv s 1024;
                         EvSend s [("type", JStr "register");
                                   ("username", JStr (username self));
                                   ("voice", voice); ("id", msg_id)]] |})
  /\ verify self code w =
    (Ok tt,
     {| daemon := daemon w; opened := S s;
        log := log w ++ [EvConnect s; EvRecv s 1024;
                         EvSend s [("type", JStr "verify");
                                   ("username", JStr (username self));
                                   ("code", code); ("id", msg_id)]] |}).
Proof.
  split; unfold register, verify, bind; rewrite _send_command_run; reflexivity.
Qed.

(** C8, as the code has it. A line without the identifier is passed over
    unparsed, and so is a line that holds it and parses to an object with
    another [id]; a line that holds the identifier and does not parse is not
    passed over: the call raises what the parser raised. *)
Theorem C8_scan_skips_and_raises (msg_id line : string) (rest : list string) :
  (contains msg_id line = false -> scan msg_id (line :: rest) = scan msg_id rest)
  /\ (forall d,
        contains msg_id line = true ->
        json_loads_bytes line = Ok (JObj d) ->
        dict_get d "id" <> Some (JStr msg_id) ->
        scan msg_id (line :: rest) = scan msg_id rest)
  /\ (forall e,
        contains msg_id line = true ->
        json_loads_bytes line = Raise e ->
        scan msg_id (line :: rest) = Raise e).
Proof.
  split; [|split].
  - intros Hc. cbn [scan]. rewrite Hc. reflexivity.
  - intros d Hc Hl Hi. cbn [scan]. rewrite Hc, Hl. cbn [negb py_get].
    destruct (dict_get d "id") as [i|] eqn:Ei; [|reflexivity].
    destruct i; try reflexivity. cbn [is_str].
    destruct (String.eqb s msg_id) eqn:E; [|reflexivity].
    apply String.eqb_eq in E. subst. congruence.
  - intros e Hc Hl. cbn [scan]. rewrite Hc, Hl. reflexivity.
Qed.

End CommandClient.

(** ** The message reader *)

Section MessageReader.
Context {RT : Runtime}.

(** A line that does not parse leaves [message] as it was and the body of the
    loop runs on that value. *)
Lemma receive_loop_malformed (message : option json) (line : string) (rest : gen string) :
  json_loads_str line = Raise JSONDecodeError ->
  receive_loop message (Yield line rest) =
  Prints "Invalid JSON"
    match receive_turn message with
    | Continue message => receive_loop (Some message) rest
    | Yields m message => Yield m (receive_loop (Some message) rest)
    | Fails e => GRaise e
    end.
Proof. intros H. cbn [receive_loop]. rewrite H. reflexivity. Qed.

(** On the first line there is no earlier value: the name is unbound. *)
Lemma receive_loop_malformed_first (line : string) (rest : gen string) :
  json_loads_str line = Raise JSONDecodeError ->
  receive_loop None (Yield line rest) =
  Prints "Invalid JSON" (GRaise (UnboundLocalError "message")).
Proof. intros H. rewrite receive_loop_malformed by exact H. reflexivity. Qed.

(** The message built from data without [sourceDevice] has [None] there. *)
Lemma make_message_source_device (data : dict) (m : types.Message) :
  dict_get data "sourceDevice" = None ->
  make_message (JObj data) = Ok m ->
  types.source_device m = JNull.
Proof.
  intros Hd. unfold make_message. cbn [py_get res_bind]. rewrite Hd.
  repeat match goal with
         | |- context [res_bind ?r _] => destruct r; cbn [res_bind]; try discriminate
         end.
  intros H. injection H as <-. reflexivity.
Qed.

(** C10. An envelope of type [message] without a [data] key ends the
    iteration with the key error of [message['data']]: nothing is yielded for
    it and no later line is read. *)
Theorem C10_message_without_data_raises_KeyError
    (prev : option json) (line : string) (rest : gen string) (d : dict) :
  json_loads_str line = Ok (JObj d) ->
  dict_get d "type" = Some (JStr "message") ->
  dict_get d "data" = None ->
  receive_loop prev (Yield line rest) = GRaise (KeyError "data").
Proof.
  intros Hl Ht Hd. cbn [receive_loop]. rewrite Hl.
  unfold receive_turn. cbn [py_get py_getitem]. rewrite Ht, Hd. reflexivity.
Qed.

End MessageReader.

(** ** The chat dispatcher *)

Section Dispatcher.
Context {RT : Runtime}.

Lemma searches_app (l1 l2 : list event) :
  searches (l1 ++ l2) = searches l1 ++ searches l2.
Proof.
  induction l1 as [|e l1 IH]; [reflexivity|].
  destruct e; cbn [searches app]; rewrite ?IH; reflexivity.
Qed.

Lemma sent_app (l1 l2 : list event) : sent (l1 ++ l2) = sent l1 ++ sent l2.
Proof.
  induction l1 as [|e l1 IH]; [reflexivity|].
  destruct e; cbn [sent app]; rewrite ?IH; reflexivity.
Qed.

Lemma searches_map (hs : list registration) : searches (map EvSearch hs) = hs.
Proof. induction hs as [|h hs IH]; [reflexivity|]. cbn. now rewrite IH. Qed.


Lemma logged_logged (w : world) (l1 l2 : list event) :
  logged (logged w l1) l2 = logged w (l1 ++ l2).
Proof. unfold logged. cbn. now rewrite app_assoc. Qed.

(** Sending a command searches no registration. *)
Lemma _send_command_searches (self : Signal) (payload : dict) (block : bool) (w : world) :
  searches (log (snd (_send_command self payload block w))) = searches (log w).
Proof.
  rewrite _send_command_run. destruct block; cbn [snd log];
    rewrite searches_app; cbn [searches]; apply app_nil_r.
Qed.

Lemma then_ret_snd {X} (m : M X) (w : world) : snd ((m ;;; ret tt) w) = snd (m w).
Proof. unfold bind, ret. destruct (m w) as [[x|e] w']; reflexivity. Qed.

Lemma send_reply_searches (self : Signal) (message : types.Message) (reply : json) (w : world) :
  searches (log (snd (send_reply self message reply w))) = searches (log w).
Proof.
  unfold send_reply, bind, lift.
  destruct (py_get (types.group_info message) "groupId" JNull) as [g|e]; [|reflexivity].
  destruct (truthy g); unfold send_group_message, send_message;
    rewrite then_ret_snd; apply _send_command_searches.
Qed.




End Dispatcher.

Section Routing.
Context {RT : Runtime}.

(** A registration whose pattern is found and whose handler returns: the
    reply goes through [send_reply], and matching goes on when [stop] is
    false. *)
Lemma dispatch_reply (self : Signal) (message : types.Message)
    (order : Z) (regex : regex) (func : func) (rest : list registration)
    (text : string) (match_ : re_match) (r : pyret) (stop reply : json) (w : world) :
  types.text message = JStr text ->
  re_search regex text = Some match_ ->
  call func message match_ = Ok r ->
  unpack_reply r = Ok (stop, reply) ->
  dispatch self message ((order, regex, func) :: rest) w =
  (emit (EvSearch (order, regex, func)) ;;;
   send_reply self message reply ;;;
   if truthy stop then ret tt else dispatch self message rest) w.
Proof.
  intros Ht Hs Hc Hu. cbn [dispatch]. unfold bind at 1 3. cbn [emit].
  rewrite Ht, Hs, Hc. unfold bind at 1, lift. rewrite Hu. reflexivity.
Qed.

Lemma send_group_message_sent (self : Signal) (g reply : json) (block : bool) (w : world) :
  sent (log (snd (send_group_message self g reply block w))) =
  sent (log w) ++
  [[("type", JStr "send"); ("username", JStr (username self));
    ("recipientGroupId", g); ("messageBody", reply);
    ("id", JStr (rand_id (daemon w (opened w))))]].
Proof.
  unfold send_group_message. rewrite then_ret_snd, _send_command_run.
  destruct block; cbn [snd log]; rewrite sent_app; reflexivity.
Qed.

Lemma send_message_sent (self : Signal) (recipient reply : json) (block : bool) (w : world) :
  sent (log (snd (send_message self recipient reply block w))) =
  sent (log w) ++
  [[("type", JStr "send"); ("username", JStr (username self));
    ("recipientAddress", recipient); ("messageBody", reply);
    ("id", JStr (rand_id (daemon w (opened w))))]].
Proof.
  unfold send_message. rewrite then_ret_snd, _send_command_run.
  destruct block; cbn [snd log]; rewrite sent_app; reflexivity.
Qed.

(** C6, as the code has it. When the group information of the message holds
    a [groupId] that is true (not empty, not [None], not zero), the reply goes
    through [send_group_message] to that identifier and the one command
    written has [recipientGroupId] and no [recipientAddress]; when it holds no
    [groupId], the reply goes through [send_message] to the source of the
    message. *)
Theorem C6_reply_routing
    (self : Signal) (message : types.Message) (reply : json) (w : world) (gi : dict) :
  types.group_info message = JObj gi ->
  (forall g,
     dict_get gi "groupId" = Some g ->
     truthy g = true ->
     send_reply self message reply w = send_group_message self g reply false w
     /\ sent (log (snd (send_reply self message reply w))) =
        sent (log w) ++
        [[("type", JStr "send"); ("username", JStr (username self));
          ("recipientGroupId", g); ("messageBody", reply);
          ("id", JStr (rand_id (daemon w (opened w))))]])
  /\ (dict_get gi "groupId" = None ->
      send_reply self message reply w
      = send_message self (types.source message) reply true w
      /\ sent (log (snd (send_reply self message reply w))) =
         sent (log w) ++
         [[("type", JStr "send"); ("username", JStr (username self));
           ("recipientAddress", types.source message); ("messageBody", reply);
           ("id", JStr (rand_id (daemon w (opened w))))]]).
Proof.
  intros Hgi. split.
  - intros g Hg Ht.
    assert (E : send_reply self message reply w = send_group_message self g reply false w).
    { unfold send_reply, bind, lift. rewrite Hgi. cbn [py_get]. rewrite Hg, Ht.
      reflexivity. }
    split; [exact E|]. rewrite E. apply send_group_message_sent.
  - intros Hg.
    assert (E : send_reply self message reply w
                = send_message self (types.source message) reply true w).
    { unfold send_reply, bind, lift. rewrite Hgi. cbn [py_get]. rewrite Hg.
      reflexivity. }
    split; [exact E|]. rewrite E. apply send_message_sent.
Qed.

(** C9. The routing tests the value of [groupId], not the presence of the
    key: with the key present and its value false (the empty string, [None]
    and 0 are) the reply goes through [send_message] to the source of the
    message, and the one command written has [recipientAddress] and no
    [recipientGroupId]. *)
Theorem C9_falsy_group_id_routes_direct
    (self : Signal) (message : types.Message) (reply : json) (w : world)
    (gi : dict) (g : json) :
  types.group_info message = JObj gi ->
  dict_get gi "groupId" = Some g ->
  truthy g = false ->
  send_reply self message reply w
  = send_message self (types.source message) reply true w
  /\ sent (log (snd (send_reply self message reply w))) =
     sent (log w) ++
     [[("type", JStr "send"); ("username", JStr (username self));
       ("recipientAddress", types.source message); ("messageBody", reply);
       ("id", JStr (rand_id (daemon w (opened w))))]]
  /\ truthy (JStr EmptyString) = false
  /\ truthy JNull = false
  /\ truthy (JInt 0) = false.
Proof.
  intros Hgi Hg Ht.
  assert (E : send_reply self message reply w
              = send_message self (types.source message) reply true w).
  { unfold send_reply, bind, lift. rewrite Hgi. cbn [py_get]. rewrite Hg, Ht.
    reflexivity. }
  split; [exact E|]. split; [|repeat split].
  rewrite E. apply send_message_sent.
Qed.



End Routing.

(** ** The line reader *)

Section Strings.

Lemma append_assoc (a b c : string) : ((a ++ b) ++ c = a ++ (b ++ c))%string.
Proof. induction a as [|x a IH]; cbn; [reflexivity|now rewrite IH]. Qed.

Lemma append_nil_r (a : string) : (a ++ EmptyString = a)%string.
Proof. induction a as [|x a IH]; cbn; [reflexivity|now rewrite IH]. Qed.

Lemma has_newline_append (a b : string) :
  has_newline (a ++ b)%string = has_newline a || has_newline b.
Proof.
  induction a as [|x a IH]; cbn; [reflexivity|]. now rewrite IH, orb_assoc.
Qed.

End Strings.

Lemma readlines_line (buf line rest : string) :
  has_newline line = false ->
  readlines buf (line ++ String newline rest)%string
  = Yield (buf ++ line)%string (readlines EmptyString rest).
Proof.
  revert buf. induction line as [|c line IH]; intros buf H; cbn in *.
  - rewrite append_nil_r. reflexivity.
  - apply orb_false_elim in H as [Hc Hl]. rewrite Hc, IH by exact Hl.
    rewrite append_assoc. reflexivity.
Qed.

Lemma readlines_unterminated (buf tail : string) :
  has_newline tail = false ->
  readlines buf tail = GRaise ConnectionResetError.
Proof.
  revert buf. induction tail as [|c tail IH]; intros buf H; cbn in *.
  - reflexivity.
  - apply orb_false_elim in H as [Hc Hl]. rewrite Hc. now apply IH.
Qed.

(** X1. Reading what a peer framed gives the lines back, in order; bytes
    after the last newline are never yielded, and the iteration ends with the
    connection reset. *)
Theorem X1_readlines_frame (lines : list string) (tail : string) :
  Forall (fun line => has_newline line = false) lines ->
  has_newline tail = false ->
  readlines EmptyString (frame lines ++ tail)%string
  = yields_then lines ConnectionResetError.
Proof.
  intros Hl Ht. induction Hl as [|line lines H _ IH]; cbn [frame yields_then fold_right].
  - now apply readlines_unterminated.
  - rewrite append_assoc. cbn [String.append].
    rewrite readlines_line by exact H. cbn [String.append]. now rewrite IH.
Qed.

(** X2. Whatever the peer sends, no line yielded holds a newline, there is
    one line for each newline received, nothing is printed, and the
    iteration never ends otherwise than with the connection reset. *)
Theorem X2_readlines_invariants (buf stream : string) :
  has_newline buf = false ->
  Forall (fun line => has_newline line = false) (yielded (readlines buf stream))
  /\ List.length (yielded (readlines buf stream)) = count_newlines stream
  /\ printed (readlines buf stream) = []
  /\ ending (readlines buf stream) = ConnectionResetError.
Proof.
  revert buf. induction stream as [|c stream IH]; intros buf Hb;
    cbn [readlines count_newlines].
  - repeat split; constructor.
  - destruct (Ascii.eqb c newline) eqn:Ec;
      cbn [yielded printed ending List.length].
    + destruct (IH EmptyString eq_refl) as (H1 & H2 & H3 & H4).
      split; [constructor; [exact Hb|exact H1]|].
      split; [now rewrite H2|]. split; assumption.
    + apply IH. rewrite has_newline_append, Hb. cbn [has_newline orb].
      now rewrite Ec.
Qed.

(** ** More on the command client *)

Section Substrings.

Lemma prefix_append (n a b : string) :
  String.prefix n a = true -> String.prefix n (a ++ b)%string = true.
Proof.
  revert a. induction n as [|x n IH]; intros a H;
    [destruct (a ++ b)%string; reflexivity|].
  destruct a as [|y a]; cbn in *; [discriminate|].
  destruct (ascii_dec x y); [now apply IH|discriminate].
Qed.

Lemma contains_append_l (n a b : string) :
  contains n a = true -> contains n (a ++ b)%string = true.
Proof.
  induction a as [|x a IH]; intros H.
  - cbn [contains] in H. destruct (String.prefix n EmptyString) eqn:E; [|discriminate].
    apply (prefix_append _ _ b) in E. cbn [String.append] in E |- *.
    destruct b; cbn [contains]; now rewrite E.
  - cbn [contains String.append] in *.
    destruct (String.prefix n (String x a)) eqn:E.
    + apply (prefix_append _ _ b) in E. cbn [String.append] in E. now rewrite E.
    + destruct (String.prefix n (String x (a ++ b))); [reflexivity|now apply IH].
Qed.

Lemma contains_append_r (n a b : string) :
  contains n b = true -> contains n (a ++ b)%string = true.
Proof.
  intros H. induction a as [|x a IH]; [exact H|].
  cbn [contains String.append].
  destruct (String.prefix n (String x (a ++ b))); [reflexivity|exact IH].
Qed.

(** A piece of [split] is a piece of the bytes split. *)
Lemma split_from_piece (b cur line : string) :
  In line (split_from cur b) ->
  exists before after, (cur ++ b = before ++ line ++ after)%string.
Proof.
  revert cur. induction b as [|c b IH]; intros cur H; cbn [split_from] in H.
  - destruct H as [<-|[]]. exists EmptyString, EmptyString.
    cbn [String.append]. reflexivity.
  - destruct (Ascii.eqb c newline).
    + destruct H as [<-|H].
      * exists EmptyString, (String c b). reflexivity.
      * destruct (IH _ H) as (before & after & E). cbn [String.append] in E.
        exists (cur ++ String c before)%string, after.
        rewrite append_assoc. cbn [String.append]. now rewrite E.
    + destruct (IH _ H) as (before & after & E).
      exists before, after. rewrite <- E, append_assoc. reflexivity.
Qed.

Lemma contains_split_newline (n b line : string) :
  contains n b = false ->
  In line (split_newline b) ->
  contains n line = false.
Proof.
  intros Hb Hin. destruct (contains n line) eqn:E; [|reflexivity].
  destruct (split_from_piece _ _ _ Hin) as (before & after & Eb).
  cbn [String.append] in Eb. rewrite Eb in Hb.
  rewrite contains_append_r in Hb; [discriminate|].
  now apply contains_append_l.
Qed.

End Substrings.

Section Dicts.



Lemma is_str_true (s : string) (v : json) : is_str s v = true -> v = JStr s.
Proof.
  destruct v; cbn; try discriminate. intros H. apply String.eqb_eq in H. now subst.
Qed.

End Dicts.

Section CommandClientMore.
Context {RT : Runtime}.


(** What the scan can return. *)
Lemma scan_sound (msg_id : string) (lines : list string) (data : json) :
  scan msg_id lines = Ok data ->
  data = JNull
  \/ exists line d t,
       In line lines
       /\ contains msg_id line = true
       /\ json_loads_bytes line = Ok data
       /\ data = JObj d
       /\ dict_get d "id" = Some (JStr msg_id)
       /\ dict_get d "type" = Some t
       /\ is_str "unexpected_error" t = false.
Proof.
  induction lines as [|line lines IH]; cbn [scan]; intros H.
  - left. now injection H as <-.
  - assert (Hrest : scan msg_id lines = Ok data ->
            data = JNull
            \/ exists line0 d t,
                 In line0 (line :: lines)
                 /\ contains msg_id line0 = true
                 /\ json_loads_bytes line0 = Ok data
                 /\ data = JObj d
                 /\ dict_get d "id" = Some (JStr msg_id)
                 /\ dict_get d "type" = Some t
                 /\ is_str "unexpected_error" t = false).
    { intros H'. destruct (IH H') as [->|(l & d & t & Hin & Hrest)]; [now left|].
      right. exists l, d, t. split; [now right|exact Hrest]. }
    destruct (contains msg_id line) eqn:Hc; cbn [negb] in H; [|now apply Hrest].
    destruct (json_loads_bytes line) as [v|e] eqn:Hl; [|discriminate].
    destruct v; cbn [py_get] in H; try discriminate.
    destruct (dict_get kv "id") as [i|] eqn:Hi.
    + destruct (is_str msg_id i) eqn:Hs; cbn [negb] in H; [|now apply Hrest].
      apply is_str_true in Hs. subst i. cbn [py_getitem] in H.
      destruct (dict_get kv "type") as [t|] eqn:Ht; [|discriminate].
      destruct (is_str "unexpected_error" t) eqn:Hu; [discriminate|].
      injection H as <-. right. exists line, kv, t.
      repeat split; auto. now left.
    + cbn [is_str negb] in H. now apply Hrest.
Qed.

(** X3. A blocking command that returns has found no answer and returns
    [None], or returns an object that one line of the bounded read, holding
    the identifier, parses to: its [id] is the identifier of the request and
    its type is not [unexpected_error]. *)
Theorem X3_blocking_result_is_correlated
    (self : Signal) (payload : dict) (w : world) (data : json) :
  fst (_send_command self payload true w) = Ok data ->
  data = JNull
  \/ exists line d t,
       In line (split_newline
                  (String.substring 0 (4 * 1024) (response (daemon w (opened w)))))
       /\ contains (rand_id (daemon w (opened w))) line = true
       /\ json_loads_bytes line = Ok data
       /\ data = JObj d
       /\ dict_get d "id" = Some (JStr (rand_id (daemon w (opened w))))
       /\ dict_get d "type" = Some t
       /\ is_str "unexpected_error" t = false.
Proof.
  rewrite _send_command_run. cbn [fst]. apply scan_sound.
Qed.

Lemma scan_without_id (msg_id : string) (lines : list string) :
  (forall line, In line lines -> contains msg_id line = false) ->
  scan msg_id lines = Ok JNull.
Proof.
  induction lines as [|line lines IH]; intros H; cbn [scan]; [reflexivity|].
  rewrite (H line) by now left. cbn [negb]. apply IH.
  intros l Hl. apply H. now right.
Qed.

(** X4. When the identifier occurs nowhere in the first 4096 bytes the daemon
    has for the connection, the blocking command returns [None]: no
    exception, whatever else those bytes are. *)
Theorem X4_no_correlated_answer_returns_None
    (self : Signal) (payload : dict) (w : world) :
  contains (rand_id (daemon w (opened w)))
    (String.substring 0 (4 * 1024) (response (daemon w (opened w)))) = false ->
  fst (_send_command self payload true w) = Ok JNull.
Proof.
  intros H. rewrite _send_command_run. cbn [fst]. apply scan_without_id.
  intros line Hin. eapply contains_split_newline; eassumption.
Qed.

Lemma scan_returns (msg_id line : string) (rest : list string) (d : dict) (t : json) :
  contains msg_id line = true ->
  json_loads_bytes line = Ok (JObj d) ->
  dict_get d "id" = Some (JStr msg_id) ->
  dict_get d "type" = Some t ->
  is_str "unexpected_error" t = false ->
  scan msg_id (line :: rest) = Ok (JObj d).
Proof.
  intros Hc Hl Hi Ht Hu. cbn [scan]. rewrite Hc, Hl. cbn [negb py_get py_getitem].
  rewrite Hi, Ht. cbn [is_str]. rewrite String.eqb_refl. cbn [negb].
  rewrite Hu. reflexivity.
Qed.

(** X5. [get_group_list], blocking, returns the first answer of the bounded
    read that carries the identifier of the request, when its type is not
    [unexpected_error]; lines after it are not looked at. *)
Theorem X5_get_group_list_returns_answer
    (self : Signal) (w : world) (pre post : list string) (line : string)
    (d : dict) (t : json) :
  split_newline (String.substring 0 (4 * 1024) (response (daemon w (opened w))))
    = pre ++ line :: post ->
  Forall (fun l => passed_over (rand_id (daemon w (opened w))) l = true) pre ->
  contains (rand_id (daemon w (opened w))) line = true ->
  json_loads_bytes line = Ok (JObj d) ->
  dict_get d "id" = Some (JStr (rand_id (daemon w (opened w)))) ->
  dict_get d "type" = Some t ->
  is_str "unexpected_error" t = false ->
  fst (get_group_list self true w) = Ok (JObj d).
Proof.
  intros Hsplit Hpre Hc Hl Hi Ht Hu.
  unfold get_group_list, bind. rewrite _send_command_run.
  rewrite Hsplit, scan_skips by exact Hpre.
  erewrite scan_returns by eassumption. reflexivity.
Qed.



End CommandClientMore.

(** ** More on the message reader *)

Section MessageReaderMore.
Context {RT : Runtime}.

(** An event of type [message] whose data is not a typing notification is
    turned into a message, or ends the iteration with what building the
    message raised. *)
Lemma receive_loop_event (prev : option json) (line : string) (rest : gen string)
    (env : dict) (data : json) :
  json_loads_str line = Ok (JObj env) ->
  dict_get env "type" = Some (JStr "message") ->
  dict_get env "data" = Some data ->
  py_contains "typing" data = Ok false ->
  receive_loop prev (Yield line rest) =
  match make_message data with
  | Ok m => Yield m (receive_loop (Some data) rest)
  | Raise e => GRaise e
  end.
Proof.
  intros Hl Ht Hd Hc. cbn [receive_loop]. rewrite Hl.
  unfold receive_turn. cbn [py_get py_getitem]. rewrite Ht, Hd. cbn [is_str].
  rewrite String.eqb_refl. cbn [negb]. rewrite Hc.
  destruct (make_message data); reflexivity.
Qed.

(** X8. An event whose data has no [dataMessage] is still turned into a
    message: its text is the empty string, it has no attachment, no group,
    no timestamp; the sender fields are read from the data, the empty string
    standing for a missing [username] or [source]. *)
Theorem X8_event_without_dataMessage
    (prev : option json) (line : string) (rest : gen string) (env d : dict) :
  json_loads_str line = Ok (JObj env) ->
  dict_get env "type" = Some (JStr "message") ->
  dict_get env "data" = Some (JObj d) ->
  dict_get d "typing" = None ->
  dict_get d "dataMessage" = None ->
  receive_loop prev (Yield line rest) =
  Yield {| types.username := value_or (dict_get d "username") (JStr EmptyString);
           types.source := value_or (dict_get d "source") (JStr EmptyString);
           types.text := JStr EmptyString;
           types.source_device := value_or (dict_get d "sourceDevice") JNull;
           types.timestamp := JNull;
           types.timestamp_iso := value_or (dict_get d "timestampISO") JNull;
           types.attachments := [];
           types.group_info := JObj [];
           types.group_list := [] |}
        (receive_loop (Some (JObj d)) rest).
Proof.
  intros Hl Ht Hd Hty Hdm.
  rewrite (receive_loop_event prev line rest env (JObj d)); auto.
  - unfold make_message. cbn [py_get res_bind]. rewrite Hdm.
    cbn [py_get res_bind dict_get py_iter make_attachments]. reflexivity.
  - cbn [py_contains]. now rewrite Hty.
Qed.

Lemma make_attachment_ok (item : json) (att : types.Attachment) :
  make_attachment item = Ok att ->
  exists a,
    item = JObj a
    /\ dict_get a "contentType" = Some (types.content_type att)
    /\ dict_get a "id" = Some (types.id att)
    /\ dict_get a "size" = Some (types.size att)
    /\ dict_get a "storedFilename" = Some (types.stored_filename att).
Proof.
  unfold make_attachment. destruct item; cbn [py_getitem res_bind]; try discriminate.
  destruct (dict_get kv "contentType") eqn:E1; cbn [res_bind]; [|discriminate].
  destruct (dict_get kv "id") eqn:E2; cbn [res_bind]; [|discriminate].
  destruct (dict_get kv "size") eqn:E3; cbn [res_bind]; [|discriminate].
  destruct (dict_get kv "storedFilename") eqn:E4; cbn [res_bind]; [|discriminate].
  intros H. injection H as <-. exists kv. cbn. repeat split; assumption.
Qed.

(** X9. When the attachments are built, there is one for each item of the
    list, in the order of the list, and each holds the four fields of its
    item as they came. *)
Theorem X9_attachments_verbatim (items : list json) (atts : list types.Attachment) :
  make_attachments items = Ok atts ->
  Forall2 (fun item att =>
             exists a,
               item = JObj a
               /\ dict_get a "contentType" = Some (types.content_type att)
               /\ dict_get a "id" = Some (types.id att)
               /\ dict_get a "size" = Some (types.size att)
               /\ dict_get a "storedFilename" = Some (types.stored_filename att))
          items atts.
Proof.
  revert atts. induction items as [|item items IH]; intros atts; cbn [make_attachments].
  - intros H. injection H as <-. constructor.
  - destruct (make_attachment item) as [att|e] eqn:E; cbn [res_bind]; [|discriminate].
    destruct (make_attachments items) as [others|e]; cbn [res_bind]; [|discriminate].
    intros H. injection H as <-. constructor.
    + now apply make_attachment_ok.
    + now apply IH.
Qed.

Lemma make_attachment_missing (a : dict) (k : string) :
  In k attachment_keys ->
  dict_get a k = None ->
  exists k', In k' attachment_keys /\ make_attachment (JObj a) = Raise (KeyError k').
Proof.
  intros Hin Hk. unfold make_attachment. cbn [py_getitem].
  destruct (dict_get a "contentType") eqn:E1; cbn [res_bind];
    [|exists "contentType"%string; split; [cbn; auto|reflexivity]].
  destruct (dict_get a "id") eqn:E2; cbn [res_bind];
    [|exists "id"%string; split; [cbn; auto|reflexivity]].
  destruct (dict_get a "size") eqn:E3; cbn [res_bind];
    [|exists "size"%string; split; [cbn; auto|reflexivity]].
  destruct (dict_get a "storedFilename") eqn:E4; cbn [res_bind];
    [|exists "storedFilename"%string; split; [cbn; auto 6|reflexivity]].
  cbn in Hin. destruct Hin as [<-|[<-|[<-|[<-|[]]]]]; congruence.
Qed.

Lemma make_attachments_missing (items : list json) (a : dict) (k : string) :
  In (JObj a) items ->
  In k attachment_keys ->
  dict_get a k = None ->
  exists e, make_attachments items = Raise e.
Proof.
  intros Hin Hk Hnone. induction items as [|item items IH]; [destruct Hin|].
  cbn [make_attachments]. destruct Hin as [->|Hin].
  - destruct (make_attachment_missing a k Hk Hnone) as (k' & _ & ->).
    now exists (KeyError k').
  - destruct (make_attachment item) as [att|e]; cbn [res_bind]; [|now exists e].
    destruct (IH Hin) as (e & ->). now exists e.
Qed.

(** X10. An attachment that lacks one of its four fields is not dropped and
    the message is not yielded without it: the event ends the iteration with
    an exception, and no later line is read. *)
Theorem X10_attachment_missing_field_ends_stream
    (prev : option json) (line : string) (rest : gen string)
    (env d dm a : dict) (items : list json) (k : string) :
  json_loads_str line = Ok (JObj env) ->
  dict_get env "type" = Some (JStr "message") ->
  dict_get env "data" = Some (JObj d) ->
  dict_get d "typing" = None ->
  dict_get d "dataMessage" = Some (JObj dm) ->
  dict_get dm "attachments" = Some (JArr items) ->
  In (JObj a) items ->
  In k attachment_keys ->
  dict_get a k = None ->
  exists e, receive_loop prev (Yield line rest) = GRaise e.
Proof.
  intros Hl Ht Hd Hty Hdm Hatt Hin Hk Hnone.
  rewrite (receive_loop_event prev line rest env (JObj d)); auto.
  - unfold make_message. cbn [py_get res_bind]. rewrite Hdm.
    cbn [py_get res_bind value_or]. rewrite Hatt. cbn [py_iter res_bind].
    destruct (make_attachments_missing items a k Hin Hk Hnone) as (e & ->).
    now exists e.
  - cbn [py_contains]. now rewrite Hty.
Qed.

(** X11. An envelope whose type is not [message] (or that has none), and a
    typing notification, yield nothing and print nothing: the iteration goes
    on with the next line. *)
Theorem X11_other_envelopes_are_skipped
    (prev : option json) (line : string) (rest : gen string) (env : dict) :
  json_loads_str line = Ok (JObj env) ->
  (is_str "message" (value_or (dict_get env "type") JNull) = false ->
   receive_loop prev (Yield line rest) = receive_loop (Some (JObj env)) rest)
  /\ (forall d v,
        dict_get env "type" = Some (JStr "message") ->
        dict_get env "data" = Some (JObj d) ->
        dict_get d "typing" = Some v ->
        receive_loop prev (Yield line rest) = receive_loop (Some (JObj env)) rest).
Proof.
  intros Hl. split.
  - intros Ht. cbn [receive_loop]. rewrite Hl. unfold receive_turn. cbn [py_get].
    unfold value_or in Ht. rewrite Ht. reflexivity.
  - intros d v Ht Hd Hty. cbn [receive_loop]. rewrite Hl. unfold receive_turn.
    cbn [py_get py_getitem]. rewrite Ht, Hd. cbn [is_str].
    rewrite String.eqb_refl. cbn [negb py_contains]. rewrite Hty. reflexivity.
Qed.

(** X12. A line that is JSON but not an object (a list, a string, a number,
    a literal) ends the iteration with the attribute error of
    [message.get]. *)
Theorem X12_non_object_line_ends_stream
    (prev : option json) (line : string) (rest : gen string) (v : json) :
  json_loads_str line = Ok v ->
  (forall d, v <> JObj d) ->
  receive_loop prev (Yield line rest) = GRaise AttributeError.
Proof.
  intros Hl Hv. cbn [receive_loop]. rewrite Hl. unfold receive_turn.
  destruct v; try reflexivity. now destruct (Hv kv).
Qed.

(** X13. Only the JSON decode error is caught: a line whose decoding raises
    anything else ends the iteration with that exception. *)
Theorem X13_other_decoding_errors_end_stream
    (prev : option json) (line : string) (rest : gen string) (e : exn) :
  json_loads_str line = Raise e ->
  e <> JSONDecodeError ->
  receive_loop prev (Yield line rest) = GRaise e.
Proof.
  intros Hl He. cbn [receive_loop]. rewrite Hl. destruct e; try reflexivity.
  now destruct He.
Qed.

(** X14. The reader yields at most one message for each line it is given. *)
Theorem X14_at_most_one_message_per_line (prev : option json) (lines : gen string) :
  (List.length (yielded (receive_loop prev lines)) <= List.length (yielded lines))%nat.
Proof.
  revert prev. induction lines as [line rest IH|s rest IH|e]; intros prev.
  - assert (Hbody : forall message,
              (List.length (yielded
                 match receive_turn message with
                 | Continue message => receive_loop (Some message) rest
                 | Yields m message => Yield m (receive_loop (Some message) rest)
                 | Fails e => GRaise e
                 end) <= S (List.length (yielded rest)))%nat).
    { intros message. destruct (receive_turn message); cbn [yielded List.length].
      - specialize (IH (Some message0)). lia.
      - specialize (IH (Some message0)). lia.
      - lia. }
    cbn [receive_loop yielded List.length].
    destruct (json_loads_str line) as [v|e]; [apply Hbody|].
    destruct e; cbn [yielded List.length]; try lia. apply Hbody.
  - cbn [receive_loop yielded]. apply IH.
  - cbn. lia.
Qed.

End MessageReaderMore.

(** ** More on the chat dispatcher *)

Section SortingMore.
Context {A : Type} (key : A -> Z).

Lemma insert_by_key_front (x : A) (l : list A) :
  Forall (by_key key x) l -> insert_by_key key x l = x :: l.
Proof.
  intros H. destruct H as [|y l Hy _]; [reflexivity|].
  cbn [insert_by_key]. unfold by_key in Hy.
  apply Z.leb_le in Hy. now rewrite Hy.
Qed.

Lemma filter_none (f : A -> bool) (l : list A) :
  Forall (fun a => f a = false) l -> filter f l = [].
Proof. induction 1 as [|a l Ha _ IH]; cbn; [reflexivity|]. now rewrite Ha. Qed.

Lemma filter_all (f : A -> bool) (l : list A) :
  Forall (fun a => f a = true) l -> filter f l = l.
Proof. induction 1 as [|a l Ha _ IH]; cbn; [reflexivity|]. now rewrite Ha, IH. Qed.

(** Sorting a sorted list with one more item at its end puts the item after
    the items whose key is not greater and before the others. *)
Lemma list_sort_snoc (x : A) (l : list A) :
  StronglySorted (by_key key) l ->
  list_sort key (l ++ [x])
  = filter (fun a => key a <=? key x) l ++ x :: filter (fun a => key x <? key a) l.
Proof.
  induction 1 as [|h t Hs IH Hall]; [reflexivity|].
  cbn [app list_sort filter]. rewrite IH.
  destruct (key h <=? key x) eqn:E.
  - apply Z.leb_le in E.
    assert (E' : (key x <? key h) = false) by (apply Z.ltb_ge; lia).
    rewrite E'. cbn [app]. apply insert_by_key_front.
    apply Forall_app. split.
    + apply Forall_forall. intros a Ha. apply filter_In in Ha as [Ha _].
      rewrite Forall_forall in Hall. now apply Hall.
    + constructor; [exact E|].
      apply Forall_forall. intros a Ha. apply filter_In in Ha as [Ha _].
      rewrite Forall_forall in Hall. now apply Hall.
  - apply Z.leb_gt in E.
    assert (E' : (key x <? key h) = true) by (apply Z.ltb_lt; lia).
    rewrite E'.
    rewrite filter_none, filter_all.
    + cbn [app insert_by_key].
      assert (E2 : (key h <=? key x) = false) by (apply Z.leb_gt; lia).
      rewrite E2. f_equal. now apply insert_by_key_front.
    + eapply Forall_impl; [|exact Hall]. intros a Ha. unfold by_key in Ha.
      apply Z.ltb_lt. lia.
    + eapply Forall_impl; [|exact Hall]. intros a Ha. unfold by_key in Ha.
      apply Z.leb_gt. lia.
Qed.

End SortingMore.

Section DispatcherMore.
Context {RT : Runtime}.

(** X15. Registering on a sorted list puts the new registration behind every
    registration whose order is not greater than its own and in front of
    every registration of greater order; the others keep their places, and
    the name and the address of the client are untouched. *)
Theorem X15_chat_handler_position
    (self : Signal) (r : regex) (arg : pattern) (order : Z) (func : func) :
  StronglySorted (fun a b => order_of a <= order_of b) (_chat_handlers self) ->
  match arg with Compiled c => Ok c | Source p => re_compile p end = Ok r ->
  chat_handler self arg order func =
  Ok {| username := username self; socket_path := socket_path self;
        _chat_handlers :=
          filter (fun a => order_of a <=? order) (_chat_handlers self)
          ++ (order, r, func)
          :: filter (fun a => order <? order_of a) (_chat_handlers self) |}.
Proof.
  intros Hs Hc. unfold chat_handler. rewrite Hc. cbn [res_bind].
  rewrite (list_sort_snoc order_of (order, r, func)) by exact Hs. reflexivity.
Qed.

(** Registrations that fall through in front of others only get searched. *)
Lemma dispatch_app_falls_through (self : Signal) (message : types.Message)
    (pre rest : list registration) (w : world) :
  forallb (falls_through message) pre = true ->
  dispatch self message (pre ++ rest) w
  = dispatch self message rest (logged w (map EvSearch pre)).
Proof.
  revert w. induction pre as [|[[order regex] func] pre IH]; intros w H.
  - cbn [app map]. unfold logged. rewrite app_nil_r. destruct w; reflexivity.
  - cbn [forallb] in H. apply andb_prop in H as [Hh Hpre].
    unfold falls_through in Hh. cbn [fst snd] in Hh.
    cbn [app dispatch]. unfold bind at 1. cbn [emit].
    destruct (types.text message) as [| | | |text| |]; try discriminate.
    destruct (re_search regex text) as [match_|].
    + destruct (call func message match_) as [r|e]; [discriminate|].
      rewrite IH, logged_logged by exact Hpre. reflexivity.
    + rewrite IH, logged_logged by exact Hpre. reflexivity.
Qed.


(** X17. A bare value stops: the answer of a handler that returns anything
    but a tuple is sent whole, and matching ends there. *)
Theorem X17_bare_reply_stops
    (self : Signal) (message : types.Message)
    (order : Z) (regex : regex) (func : func) (rest : list registration)
    (text : string) (match_ : re_match) (reply : json) (w : world) :
  types.text message = JStr text ->
  re_search regex text = Some match_ ->
  call func message match_ = Ok (RValue reply) ->
  dispatch self message ((order, regex, func) :: rest) w
  = (emit (EvSearch (order, regex, func)) ;;; send_reply self message reply) w.
Proof.
  intros Ht Hs Hc.
  rewrite (dispatch_reply self message order regex func rest text match_
             (RValue reply) (JBool true) reply w) by (assumption || reflexivity).
  unfold bind. cbn [emit truthy].
  destruct (send_reply self message reply _) as [[[]|e] w']; reflexivity.
Qed.

(** X18. A handler that returns a tuple of another length than two is not
    covered by the handler's [try]: unpacking it raises a value error that
    ends the loop, with nothing sent and no later registration searched. *)
Theorem X18_wrong_tuple_ends_loop
    (self : Signal) (message : types.Message)
    (order : Z) (regex : regex) (func : func) (pre rest : list registration)
    (text : string) (match_ : re_match) (items : list json)
    (messages : gen types.Message) (w : world) :
  types.text message = JStr text ->
  text <> EmptyString ->
  _chat_handlers self = pre ++ (order, regex, func) :: rest ->
  forallb (falls_through message) pre = true ->
  re_search regex text = Some match_ ->
  call func message match_ = Ok (RTuple items) ->
  List.length items <> 2%nat ->
  exists msg,
    run_loop self (Yield message messages) w =
    (Raise (ValueError msg),
     logged w (map EvSearch (pre ++ [(order, regex, func)]))).
Proof.
  intros Ht Hne Hh Hpre Hs Hc Hlen.
  assert (Hu : exists msg, unpack_reply (RTuple items) = Raise (ValueError msg)).
  { destruct items as [|a [|b [|c l]]]; cbn [unpack_reply]; eauto.
    now destruct Hlen. }
  destruct Hu as (msg & Hu). exists msg.
  cbn [run_loop]. unfold bind at 1, handle_message. rewrite Ht. cbn [truthy].
  destruct (String.eqb text EmptyString) eqn:Ee.
  { apply String.eqb_eq in Ee. contradiction. }
  cbn [negb]. rewrite Hh, dispatch_app_falls_through by exact Hpre.
  cbn [dispatch]. unfold bind at 1. cbn [emit]. rewrite Ht, Hs, Hc.
  unfold bind, lift. rewrite Hu, logged_logged, map_app. reflexivity.
Qed.

(** X19. What sending the reply raises is not caught either: it ends the
    loop, and no later registration is searched for the message. *)
Theorem X19_send_failure_ends_loop
    (self : Signal) (message : types.Message)
    (order : Z) (regex : regex) (func : func) (pre rest : list registration)
    (text : string) (match_ : re_match) (r : pyret) (stop reply : json)
    (messages : gen types.Message) (w : world) (e : exn) :
  types.text message = JStr text ->
  text <> EmptyString ->
  _chat_handlers self = pre ++ (order, regex, func) :: rest ->
  forallb (falls_through message) pre = true ->
  re_search regex text = Some match_ ->
  call func message match_ = Ok r ->
  unpack_reply r = Ok (stop, reply) ->
  fst (send_reply self message reply
         (logged w (map EvSearch (pre ++ [(order, regex, func)])))) = Raise e ->
  fst (run_loop self (Yield message messages) w) = Raise e
  /\ searches (log (snd (run_loop self (Yield message messages) w)))
     = searches (log w) ++ pre ++ [(order, regex, func)].
Proof.
  intros Ht Hne Hh Hpre Hs Hc Hu Hsend.
  set (w1 := logged w (map EvSearch (pre ++ [(order, regex, func)]))) in *.
  assert (Hrun : run_loop self (Yield message messages) w
                 = (Raise e, snd (send_reply self message reply w1))).
  { cbn [run_loop]. unfold bind at 1, handle_message. rewrite Ht. cbn [truthy].
    destruct (String.eqb text EmptyString) eqn:Ee.
    { apply String.eqb_eq in Ee. contradiction. }
    cbn [negb]. rewrite Hh, dispatch_app_falls_through by exact Hpre.
    rewrite (dispatch_reply self message order regex func rest text match_ r stop reply)
      by assumption.
    unfold bind. cbn [emit]. rewrite logged_logged.
    change [EvSearch (order, regex, func)] with (map EvSearch [(order, regex, func)]).
    rewrite <- map_app. fold w1.
    destruct (send_reply self message reply w1) as [[[]|e'] w']; cbn [fst] in Hsend;
      [discriminate|].
    injection Hsend as ->. reflexivity. }
  rewrite Hrun. cbn [fst snd]. split; [reflexivity|].
  rewrite send_reply_searches. unfold w1, logged. cbn [log].
  now rewrite searches_app, searches_map.
Qed.

(** X20. A message whose text is false (empty, or [None], or zero) is
    passed over whole: no registration is searched, nothing is sent, and the
    loop goes on with the next message. *)
Theorem X20_empty_text_is_skipped
    (self : Signal) (message : types.Message) (messages : gen types.Message) (w : world) :
  truthy (types.text message) = false ->
  run_loop self (Yield message messages) w = run_loop self messages w.
Proof.
  intros H. cbn [run_loop]. unfold bind, handle_message. rewrite H. reflexivity.
Qed.

(** X21. A message whose text is true and is no string (a number, a list, an
    object) ends the loop with a type error at the first search, when there
    is a registration; with none, it is passed over. *)
Theorem X21_text_that_is_no_string
    (self : Signal) (message : types.Message) (messages : gen types.Message) (w : world) :
  truthy (types.text message) = true ->
  (forall text, types.text message <> JStr text) ->
  match _chat_handlers self with
  | [] => run_loop self (Yield message messages) w = run_loop self messages w
  | r :: _ =>
      run_loop self (Yield message messages) w = (Raise TypeError, logged w [EvSearch r])
  end.
Proof.
  intros Ht Hs. cbn [run_loop]. unfold bind at 1, handle_message. rewrite Ht.
  cbn [negb]. destruct (_chat_handlers self) as [|[[order regex] func] rest].
  - reflexivity.
  - cbn [dispatch]. unfold bind, emit, raise.
    destruct (types.text message); try reflexivity. now destruct (Hs s).
Qed.



End DispatcherMore.

(** ** Connections *)

Section Connections.
Context {RT : Runtime}.

Lemma later_refl (n : nat) (w : world) : later n w w.
Proof.
  split; [reflexivity|]. split; [lia|]. exists []. split; [now rewrite app_nil_r|].
  constructor.
Qed.

Lemma later_trans (n : nat) (w1 w2 w3 : world) :
  later n w1 w2 -> later n w2 w3 -> later n w1 w3.
Proof.
  intros (Hd1 & Ho1 & l1 & Hl1 & Ha1) (Hd2 & Ho2 & l2 & Hl2 & Ha2).
  split; [congruence|]. split; [lia|]. exists (l1 ++ l2). split.
  - now rewrite Hl2, Hl1, app_assoc.
  - apply Forall_app. now split.
Qed.

Lemma later_logged (n : nat) (w : world) (l : list event) :
  after_connection n l -> later n w (logged w l).
Proof.
  intros H. split; [reflexivity|]. split; [cbn; lia|]. now exists l.
Qed.

Lemma _send_command_later (n : nat) (self : Signal) (payload : dict) (block : bool)
    (w : world) :
  (n < opened w)%nat -> later n w (snd (_send_command self payload block w)).
Proof.
  intros H. rewrite _send_command_run.
  destruct block; cbn [snd]; (split; [reflexivity|]; split; [cbn; lia|]);
    eexists; (split; [reflexivity|]); repeat constructor; exact H.
Qed.

Lemma send_reply_later (n : nat) (self : Signal) (message : types.Message)
    (reply : json) (w : world) :
  (n < opened w)%nat -> later n w (snd (send_reply self message reply w)).
Proof.
  intros H. unfold send_reply, bind, lift.
  destruct (py_get (types.group_info message) "groupId" JNull) as [g|e];
    [|apply later_refl].
  destruct (truthy g); unfold send_group_message, send_message;
    rewrite then_ret_snd; now apply _send_command_later.
Qed.

Lemma search_later (n : nat) (w : world) (r : registration) :
  later n w (logged w [EvSearch r]).
Proof. apply later_logged. repeat constructor. Qed.

Lemma dispatch_later (n : nat) (self : Signal) (message : types.Message)
    (handlers : list registration) (w : world) :
  (n < opened w)%nat -> later n w (snd (dispatch self message handlers w)).
Proof.
  revert w. induction handlers as [|[[order regex] func] handlers IH]; intros w H.
  - apply later_refl.
  - cbn [dispatch]. unfold bind at 1. cbn [emit].
    pose proof (search_later n w (order, regex, func)) as H1.
    set (w1 := logged w [EvSearch (order, regex, func)]) in *.
    assert (Hn1 : (n < opened w1)%nat) by exact H.
    assert (Hnext : later n w (snd (dispatch self message handlers w1))).
    { eapply later_trans; [exact H1|]. now apply IH. }
    destruct (types.text message) as [| | | |text| |]; try exact H1.
    destruct (re_search regex text) as [match_|]; [|exact Hnext].
    destruct (call func message match_) as [reply|e]; [|exact Hnext].
    unfold bind, lift.
    destruct (unpack_reply reply) as [[stop reply']|e]; [|exact H1].
    cbn [fst snd].
    pose proof (send_reply_later n self message reply' w1 Hn1) as H2.
    destruct (send_reply self message reply' w1) as [[[]|e] w2]; cbn [snd] in H2.
    + destruct (truthy stop).
      * cbn [ret snd]. exact (later_trans _ _ _ _ H1 H2).
      * eapply later_trans; [exact H1|]. eapply later_trans; [exact H2|].
        apply IH. destruct H2 as (_ & Ho & _). lia.
    + cbn [snd]. exact (later_trans _ _ _ _ H1 H2).
Qed.

Lemma run_loop_later (n : nat) (self : Signal) (messages : gen types.Message) (w : world) :
  (n < opened w)%nat -> later n w (snd (run_loop self messages w)).
Proof.
  revert w. induction messages as [message rest IH|s rest IH|e]; intros w H.
  - cbn [run_loop]. unfold bind, handle_message.
    destruct (negb (truthy (types.text message))).
    + cbn [ret]. now apply IH.
    + pose proof (dispatch_later n self message (_chat_handlers self) w H) as H1.
      destruct (dispatch self message (_chat_handlers self) w) as [[[]|e] w1];
        cbn [snd] in H1; [|exact H1].
      eapply later_trans; [exact H1|]. apply IH. destruct H1 as (_ & Ho & _). lia.
  - cbn [run_loop]. unfold bind. cbn [emit].
    eapply later_trans; [apply (later_logged n w [EvPrint s]); repeat constructor|].
    now apply IH.
  - apply later_refl.
Qed.

(** X23. [run_chat] first makes the subscription connection and writes the
    subscription on it, with the type and the user name and no identifier,
    without the flush that commands have. Nothing else is ever written on or
    read from that connection by the client's commands: every later connect,
    read and write is on a connection of its own made afterwards. *)
Theorem X23_subscription_first_and_apart (self : Signal) (w : world) :
  exists more,
    log (snd (run_chat self w)) =
    log w ++ EvConnect (opened w)
          :: EvSend (opened w)
               [("type"%string, JStr "subscribe");
                ("username"%string, JStr (username self))]
          :: more
    /\ after_connection (opened w) more.
Proof.
  unfold run_chat, receive_messages, bind, _get_socket, emit, ret, logged.
  cbn [fst snd daemon opened log].
  match goal with
  | |- context [run_loop self ?g ?w1] =>
      destruct (run_loop_later (opened w) self g w1) as (_ & _ & more & Hl & Ha)
  end.
  - cbn. lia.
  - exists more. split; [|exact Ha]. rewrite Hl. cbn [log].
    rewrite <- !app_assoc. reflexivity.
Qed.

End Connections.

(** ** Identifiers *)

Lemma get_In (s : string) (n : nat) (c : ascii) :
  String.get n s = Some c -> In c (list_ascii_of_string s).
Proof.
  revert n. induction s as [|x s IH]; intros n H; [discriminate|].
  destruct n as [|n]; cbn in *.
  - injection H as ->. now left.
  - right. eapply IH. exact H.
Qed.

Lemma get_Some (s : string) (n : nat) :
  (n < String.length s)%nat -> exists c, String.get n s = Some c.
Proof.
  revert n. induction s as [|x s IH]; intros n H; cbn in *; [lia|].
  destruct n as [|n]; [now exists x|]. apply IH. lia.
Qed.

Lemma random_choice_In (seq : string) (draw : nat) :
  seq <> EmptyString -> In (random_choice seq draw) (list_ascii_of_string seq).
Proof.
  intros Hne. unfold random_choice.
  destruct (get_Some seq (draw mod String.length seq)) as (c & E).
  - apply Nat.mod_upper_bound. destruct seq; [contradiction|discriminate].
  - rewrite E. eapply get_In. exact E.
Qed.

(** X24. Whatever the generator draws, an identifier is ten characters long
    and each is a lowercase letter or a digit; so an identifier never holds
    the newline that ends a command. *)
Theorem X24_identifier_shape (draws : nat -> nat) :
  String.length (_get_id_of draws) = 10%nat
  /\ Forall (fun c => In c (list_ascii_of_string id_alphabet))
            (list_ascii_of_string (_get_id_of draws))
  /\ has_newline (_get_id_of draws) = false.
Proof.
  assert (Hall : Forall (fun c => In c (list_ascii_of_string id_alphabet))
                        (list_ascii_of_string (_get_id_of draws))).
  { unfold _get_id_of. rewrite list_ascii_of_string_of_list_ascii.
    apply Forall_forall. intros c Hc. apply in_map_iff in Hc as (i & <- & _).
    apply random_choice_In. discriminate. }
  split; [reflexivity|]. split; [exact Hall|].
  revert Hall. generalize (_get_id_of draws). intros s.
  induction s as [|c s IH]; intros H; [reflexivity|].
  cbn [list_ascii_of_string] in H. inversion H as [|? ? Hc Hs]; subst.
  cbn [has_newline]. rewrite (IH Hs), orb_false_r.
  cbn in Hc.
  repeat (destruct Hc as [<-|Hc]; [reflexivity|]). destruct Hc.
Qed.

(** ** The statements at work *)

#[local] Existing Instance demo.runtime.



(** C2 fails on the code. A malformed first line ends the stream with the
    unbound name, where without it the message is yielded; and a malformed
    line after an event whose data is shaped like an event has a second
    message yielded from the stale value. *)
Theorem C2_malformed_line_is_not_skipped :
  json_loads_str "not json" = Raise JSONDecodeError
  /\ receive_loop None
       (readlines EmptyString ("not json" ++ demo.nl ++ demo.ping_line ++ demo.nl)%string)
     = Prints "Invalid JSON" (GRaise (UnboundLocalError "message"))
  /\ receive_loop None (readlines EmptyString (demo.ping_line ++ demo.nl)%string)
     = Yield demo.ping (GRaise ConnectionResetError)
  /\ map types.text (yielded (receive_loop None
       (readlines EmptyString (demo.nested_line ++ demo.nl)%string)))
     = [JStr EmptyString]
  /\ map types.text (yielded (receive_loop None
       (readlines EmptyString
          (demo.nested_line ++ demo.nl ++ "not json" ++ demo.nl)%string)))
     = [JStr EmptyString; JStr "again"].
Proof. vm_compute. repeat split. Qed.

(** C3 as the spec states it fails: the daemon answers with an unexpected
    error, the same command sent blocking raises, and [register] and [verify]
    return after the flush without reading the answer. *)
Lemma C3_counterexample :
  fst (_send_command demo.bot1
         [("type", JStr "register"); ("username", JStr "+15550000000");
          ("voice", JBool false)] true demo.failing) = Raise ProtocolError
  /\ fst (register demo.bot1 (JBool false) demo.failing) = Ok tt
  /\ fst (verify demo.bot1 (JStr "123456") demo.failing) = Ok tt
  /\ reads (log (snd (register demo.bot1 (JBool false) demo.failing)))
     = [(0%nat, 1024%nat)]
  /\ reads (log (snd (verify demo.bot1 (JStr "123456") demo.failing)))
     = [(0%nat, 1024%nat)]
  /\ sent (log (snd (register demo.bot1 (JBool false) demo.failing))) =
     [[("type", JStr "register"); ("username", JStr "+15550000000");
       ("voice", JBool false); ("id", JStr "abcdefghij")]].
Proof. vm_compute. repeat split. Qed.



Lemma C6_reply_routing_witness :
  (send_reply demo.bot1 (demo.ping_message (JObj [("groupId"%string, JStr "G1")]))
     (JStr "pong") demo.obliging
   = send_group_message demo.bot1 (JStr "G1") (JStr "pong") false demo.obliging
   /\ sent (log (snd (send_reply demo.bot1
                        (demo.ping_message (JObj [("groupId"%string, JStr "G1")]))
                        (JStr "pong") demo.obliging)))
      = [[("type", JStr "send"); ("username", JStr "+15550000000");
          ("recipientGroupId", JStr "G1"); ("messageBody", JStr "pong");
          ("id", JStr "abcdefghij")]])
  /\ (send_reply demo.bot1 demo.ping (JStr "pong") demo.obliging
      = send_message demo.bot1 (JStr "+15551234567") (JStr "pong") true demo.obliging
      /\ sent (log (snd (send_reply demo.bot1 demo.ping (JStr "pong") demo.obliging)))
         = [[("type", JStr "send"); ("username", JStr "+15550000000");
             ("recipientAddress", JStr "+15551234567"); ("messageBody", JStr "pong");
             ("id", JStr "abcdefghij")]]).
Proof.
  split.
  - apply (C6_reply_routing demo.bot1
             (demo.ping_message (JObj [("groupId"%string, JStr "G1")]))
             (JStr "pong") demo.obliging [("groupId"%string, JStr "G1")]);
      reflexivity.
  - apply (C6_reply_routing demo.bot1 demo.ping (JStr "pong") demo.obliging []);
      reflexivity.
Defined.

(** C6 as the spec states it fails: the group information holds a [groupId],
    the empty string, and the reply is sent to the source of the message. *)
Lemma C6_counterexample :
  map types.group_info
    (yielded (receive_loop None
       (readlines EmptyString (demo.empty_group_line ++ demo.nl)%string)))
  = [JObj [("groupId"%string, JStr EmptyString)]]
  /\ sent (log (snd (run_chat demo.bot3
                       (demo.inbox (demo.empty_group_line ++ demo.nl)%string))))
     = [[("type", JStr "subscribe"); ("username", JStr "+15550000000")];
        [("type", JStr "send"); ("username", JStr "+15550000000");
         ("recipientAddress", JStr "+15551234567"); ("messageBody", JStr "pong");
         ("id", JStr "abcdefghij")]].
Proof. vm_compute. repeat split. Qed.

(** C7 fails on the code. The message of the spec's scenario, whose data has
    no [sourceDevice], is yielded with [None] there, where the class
    declares 0. *)
Theorem C7_source_device_is_None :
  map types.source_device
    (yielded (receive_loop None (readlines EmptyString (demo.ping_line ++ demo.nl)%string)))
  = [JNull]
  /\ types.default_source_device = JInt 0.
Proof. vm_compute. repeat split. Qed.

Lemma C8_scan_skips_and_raises_witness :
  scan "abcdefghij" ["hello"%string; demo.js "{'id':'abcdefghij','type':'ok'}"]
  = scan "abcdefghij" [demo.js "{'id':'abcdefghij','type':'ok'}"]
  /\ scan "abcdefghij" [demo.js "{'id':'zzz','to':'abcdefghij'}";
                        demo.js "{'id':'abcdefghij','type':'ok'}"]
     = scan "abcdefghij" [demo.js "{'id':'abcdefghij','type':'ok'}"]
  /\ scan "abcdefghij" ["abcdefghij is not json"%string;
                        demo.js "{'id':'abcdefghij','type':'ok'}"]
     = Raise JSONDecodeError.
Proof.
  split; [|split].
  - apply (C8_scan_skips_and_raises "abcdefghij" "hello"). reflexivity.
  - apply (C8_scan_skips_and_raises "abcdefghij"
             (demo.js "{'id':'zzz','to':'abcdefghij'}") _) with
      (d := [("id"%string, JStr "zzz"); ("to"%string, JStr "abcdefghij")]).
    + reflexivity.
    + reflexivity.
    + discriminate.
  - apply (C8_scan_skips_and_raises "abcdefghij" "abcdefghij is not json"); reflexivity.
Defined.

(** C8 as the spec states it fails: a line holds the identifier and is not
    JSON, and the blocking call raises the decode error where the answer is
    in the next line. *)
Lemma C8_counterexample :
  contains "abcdefghij" "abcdefghij is not json" = true
  /\ json_loads_bytes "abcdefghij is not json" = Raise JSONDecodeError
  /\ fst (_send_command demo.bot1 demo.list_groups true
            (demo.answering ("abcdefghij is not json" ++ demo.nl ++ demo.ok_answer)%string))
     = Raise JSONDecodeError
  /\ fst (_send_command demo.bot1 demo.list_groups true (demo.answering demo.ok_answer))
     = Ok (JObj [("id"%string, JStr "abcdefghij"); ("type"%string, JStr "ok")]).
Proof. vm_compute. repeat split. Qed.

Lemma C9_falsy_group_id_routes_direct_witness :
  send_reply demo.bot1 (demo.ping_message (JObj [("groupId"%string, JStr EmptyString)]))
    (JStr "pong") demo.obliging
  = send_message demo.bot1 (JStr "+15551234567") (JStr "pong") true demo.obliging
  /\ sent (log (snd (send_reply demo.bot1
                       (demo.ping_message (JObj [("groupId"%string, JStr EmptyString)]))
                       (JStr "pong") demo.obliging)))
     = [[("type", JStr "send"); ("username", JStr "+15550000000");
         ("recipientAddress", JStr "+15551234567"); ("messageBody", JStr "pong");
         ("id", JStr "abcdefghij")]].
Proof.
  destruct (C9_falsy_group_id_routes_direct demo.bot1
              (demo.ping_message (JObj [("groupId"%string, JStr EmptyString)]))
              (JStr "pong") demo.obliging
              [("groupId"%string, JStr EmptyString)] (JStr EmptyString))
    as (H1 & H2 & _); [reflexivity..|].
  split; [exact H1 | exact H2].
Defined.

Lemma C10_message_without_data_raises_KeyError_witness :
  json_loads_str (demo.js "{'type':'message'}") = Ok (JObj [("type"%string, JStr "message")])
  /\ receive_loop None
       (Yield (demo.js "{'type':'message'}") (readlines EmptyString demo.ping_line))
     = GRaise (KeyError "data").
Proof.
  split; [reflexivity|].
  apply (C10_message_without_data_raises_KeyError None (demo.js "{'type':'message'}") _
           [("type"%string, JStr "message")]); reflexivity.
Defined.

(** ** More statements at work *)

Lemma X1_readlines_frame_witness :
  readlines EmptyString
    (frame ["a"%string; EmptyString; "bc"%string] ++ "partial")%string
  = yields_then ["a"%string; EmptyString; "bc"%string] ConnectionResetError.
Proof.
  apply (X1_readlines_frame ["a"%string; EmptyString; "bc"%string] "partial").
  - repeat constructor.
  - reflexivity.
Defined.

Lemma X2_readlines_invariants_witness :
  Forall (fun line => has_newline line = false)
    (yielded (readlines EmptyString ("a" ++ demo.nl ++ "b")%string))
  /\ List.length (yielded (readlines EmptyString ("a" ++ demo.nl ++ "b")%string))
     = count_newlines ("a" ++ demo.nl ++ "b")%string
  /\ printed (readlines EmptyString ("a" ++ demo.nl ++ "b")%string) = []
  /\ ending (readlines EmptyString ("a" ++ demo.nl ++ "b")%string)
     = ConnectionResetError.
Proof.
  apply (X2_readlines_invariants EmptyString ("a" ++ demo.nl ++ "b")%string).
  reflexivity.
Defined.

Lemma X3_blocking_result_is_correlated_witness :
  JObj [("id"%string, JStr "abcdefghij"); ("type"%string, JStr "ok")] = JNull
  \/ exists line d t,
       In line (split_newline
                  (String.substring 0 (4 * 1024)
                     (response (daemon demo.obliging (opened demo.obliging)))))
       /\ contains (rand_id (daemon demo.obliging (opened demo.obliging))) line = true
       /\ json_loads_bytes line
          = Ok (JObj [("id"%string, JStr "abcdefghij"); ("type"%string, JStr "ok")])
       /\ JObj [("id"%string, JStr "abcdefghij"); ("type"%string, JStr "ok")] = JObj d
       /\ dict_get d "id"
          = Some (JStr (rand_id (daemon demo.obliging (opened demo.obliging))))
       /\ dict_get d "type" = Some t
       /\ is_str "unexpected_error" t = false.
Proof.
  apply (X3_blocking_result_is_correlated demo.bot1 demo.list_groups demo.obliging).
  vm_compute. reflexivity.
Defined.

Lemma X4_no_correlated_answer_returns_None_witness :
  fst (_send_command demo.bot1 demo.list_groups true
         (demo.answering ("hello" ++ demo.nl)%string)) = Ok JNull.
Proof.
  apply (X4_no_correlated_answer_returns_None demo.bot1 demo.list_groups
           (demo.answering ("hello" ++ demo.nl)%string)).
  vm_compute. reflexivity.
Defined.

Lemma X5_get_group_list_returns_answer_witness :
  fst (get_group_list demo.bot1 true
         (demo.answering ("hello" ++ demo.nl ++ demo.ok_answer)%string))
  = Ok (JObj [("id"%string, JStr "abcdefghij"); ("type"%string, JStr "ok")]).
Proof.
  apply (X5_get_group_list_returns_answer demo.bot1
           (demo.answering ("hello" ++ demo.nl ++ demo.ok_answer)%string)
           ["hello"%string] [EmptyString]
           (demo.js "{'id':'abcdefghij','type':'ok'}")
           [("id"%string, JStr "abcdefghij"); ("type"%string, JStr "ok")]
           (JStr "ok")).
  - vm_compute. reflexivity.
  - constructor; [vm_compute; reflexivity | constructor].
  - vm_compute. reflexivity.
  - vm_compute. reflexivity.
  - reflexivity.
  - reflexivity.
  - reflexivity.
Defined.

Lemma X8_event_without_dataMessage_witness :
  yielded (receive_loop (RT := lab.runtime) None
             (Yield lab.bare_event (GRaise ConnectionResetError)))
  = [{| types.username := JStr EmptyString; types.source := JStr "x";
        types.text := JStr EmptyString; types.source_device := JNull;
        types.timestamp := JNull; types.timestamp_iso := JNull;
        types.attachments := []; types.group_info := JObj [];
        types.group_list := [] |}].
Proof.
  rewrite (X8_event_without_dataMessage (RT := lab.runtime) None lab.bare_event
             (GRaise ConnectionResetError)
             [("type"%string, JStr "message");
              ("data"%string, JObj [("source"%string, JStr "x")])]
             [("source"%string, JStr "x")]); reflexivity.
Defined.

Lemma X9_attachments_verbatim_witness :
  Forall2 (fun item att =>
             exists a,
               item = JObj a
               /\ dict_get a "contentType" = Some (types.content_type att)
               /\ dict_get a "id" = Some (types.id att)
               /\ dict_get a "size" = Some (types.size att)
               /\ dict_get a "storedFilename" = Some (types.stored_filename att))
    [JObj [("contentType"%string, JStr "image/png"); ("id"%string, JStr "7");
           ("size"%string, JInt 12); ("storedFilename"%string, JStr "/tmp/7")]]
    [{| types.content_type := JStr "image/png"; types.id := JStr "7";
        types.size := JInt 12; types.stored_filename := JStr "/tmp/7" |}].
Proof.
  apply X9_attachments_verbatim. reflexivity.
Defined.

Lemma X10_attachment_missing_field_ends_stream_witness :
  exists e,
    receive_loop (RT := lab.runtime) None
      (Yield lab.short_attachment (GRaise ConnectionResetError)) = GRaise e.
Proof.
  apply (X10_attachment_missing_field_ends_stream (RT := lab.runtime) None
           lab.short_attachment (GRaise ConnectionResetError)
           [("type"%string, JStr "message");
            ("data"%string,
             JObj [("dataMessage"%string,
                    JObj [("attachments"%string,
                           JArr [JObj [("id"%string, JStr "1")]])])])]
           [("dataMessage"%string,
             JObj [("attachments"%string, JArr [JObj [("id"%string, JStr "1")]])])]
           [("attachments"%string, JArr [JObj [("id"%string, JStr "1")]])]
           [("id"%string, JStr "1")]
           [JObj [("id"%string, JStr "1")]]
           "size"%string).
  - reflexivity.
  - reflexivity.
  - reflexivity.
  - reflexivity.
  - reflexivity.
  - reflexivity.
  - left. reflexivity.
  - right. right. left. reflexivity.
  - reflexivity.
Defined.

Lemma X11_other_envelopes_are_skipped_witness :
  receive_loop (RT := lab.runtime) None
    (Yield lab.receipt (GRaise ConnectionResetError))
  = GRaise ConnectionResetError
  /\ receive_loop (RT := lab.runtime) None
       (Yield lab.typing (GRaise ConnectionResetError))
     = GRaise ConnectionResetError.
Proof.
  split.
  - apply (X11_other_envelopes_are_skipped (RT := lab.runtime) None lab.receipt
             (GRaise ConnectionResetError) [("type"%string, JStr "receipt")]);
      reflexivity.
  - apply (X11_other_envelopes_are_skipped (RT := lab.runtime) None lab.typing
             (GRaise ConnectionResetError)
             [("type"%string, JStr "message");
              ("data"%string,
               JObj [("typing"%string, JObj [("action"%string, JStr "STARTED")])])])
      with (d := [("typing"%string, JObj [("action"%string, JStr "STARTED")])])
           (v := JObj [("action"%string, JStr "STARTED")]);
      reflexivity.
Defined.

Lemma X12_non_object_line_ends_stream_witness :
  receive_loop (RT := lab.runtime) None
    (Yield "[1]"%string (Yield lab.bare_event (GRaise ConnectionResetError)))
  = GRaise AttributeError.
Proof.
  apply (X12_non_object_line_ends_stream (RT := lab.runtime) None "[1]"%string _
           (JArr [JInt 1])).
  - reflexivity.
  - discriminate.
Defined.

Lemma X13_other_decoding_errors_end_stream_witness :
  receive_loop (RT := lab.runtime) None
    (Yield (String (ascii_of_nat 255) EmptyString)
       (Yield lab.bare_event (GRaise ConnectionResetError)))
  = GRaise UnicodeDecodeError.
Proof.
  apply (X13_other_decoding_errors_end_stream (RT := lab.runtime)).
  - reflexivity.
  - discriminate.
Defined.

Lemma X15_chat_handler_position_witness :
  chat_handler demo.registered (Source "x") 100 (demo.Answer "X") =
  Ok {| username := "+15550000000"; socket_path := inl "/run/signald.sock"%string;
        _chat_handlers :=
          [(10, "first"%string, demo.Broken); (100, "b"%string, demo.Answer "B");
           (100, "a"%string, demo.Answer "A"); (100, "x"%string, demo.Answer "X");
           (200, "never"%string, demo.Broken)] |}.
Proof.
  apply (X15_chat_handler_position demo.registered "x"%string (Source "x") 100
           (demo.Answer "X")).
  - repeat (constructor; try (vm_compute; discriminate)).
  - reflexivity.
Defined.


Lemma X17_bare_reply_stops_witness :
  dispatch (lab.client [lab.last; lab.triple]) (lab.message_with_text (JStr "ping"))
    [lab.last; lab.triple] (lab.answering demo.ok_answer)
  = (emit (EvSearch lab.last) ;;;
     send_reply (lab.client [lab.last; lab.triple])
       (lab.message_with_text (JStr "ping")) (JStr "two"))
      (lab.answering demo.ok_answer).
Proof.
  apply (X17_bare_reply_stops (RT := lab.runtime) (lab.client [lab.last; lab.triple])
           (lab.message_with_text (JStr "ping")) 20 "ping"%string
           (Ok (RValue (JStr "two"))) [lab.triple] "ping"%string tt (JStr "two")
           (lab.answering demo.ok_answer));
    reflexivity.
Defined.

Lemma X18_wrong_tuple_ends_loop_witness :
  exists msg,
    run_loop (lab.client [lab.deaf; lab.triple]) 
      (Yield (lab.message_with_text (JStr "ping")) (GRaise ConnectionResetError))
      (lab.answering demo.ok_answer)
    = (Raise (ValueError msg),
       logged (lab.answering demo.ok_answer)
         (map EvSearch ([lab.deaf] ++ [lab.triple]))).
Proof.
  apply (X18_wrong_tuple_ends_loop (RT := lab.runtime) (lab.client [lab.deaf; lab.triple])
           (lab.message_with_text (JStr "ping")) 30 "ng"%string
           (Ok (RTuple [JBool true; JStr "a"; JStr "b"])) [lab.deaf] []
           "ping"%string tt [JBool true; JStr "a"; JStr "b"]
           (GRaise ConnectionResetError) (lab.answering demo.ok_answer)).
  - reflexivity.
  - discriminate.
  - reflexivity.
  - reflexivity.
  - reflexivity.
  - reflexivity.
  - discriminate.
Defined.

Lemma X19_send_failure_ends_loop_witness :
  fst (run_loop (lab.client [lab.deaf; lab.last; lab.triple])
         (Yield (lab.message_with_text (JStr "ping")) (GRaise ConnectionResetError))
         (lab.answering demo.error_answer)) = Raise ProtocolError
  /\ searches (log (snd (run_loop (lab.client [lab.deaf; lab.last; lab.triple])
         (Yield (lab.message_with_text (JStr "ping")) (GRaise ConnectionResetError))
         (lab.answering demo.error_answer))))
     = searches (log (lab.answering demo.error_answer)) ++ [lab.deaf] ++ [lab.last].
Proof.
  apply (X19_send_failure_ends_loop (RT := lab.runtime)
           (lab.client [lab.deaf; lab.last; lab.triple])
           (lab.message_with_text (JStr "ping")) 20 "ping"%string
           (Ok (RValue (JStr "two"))) [lab.deaf] [lab.triple]
           "ping"%string tt (RValue (JStr "two")) (JBool true) (JStr "two")
           (GRaise ConnectionResetError) (lab.answering demo.error_answer)
           ProtocolError).
  - reflexivity.
  - discriminate.
  - reflexivity.
  - reflexivity.
  - reflexivity.
  - reflexivity.
  - reflexivity.
  - vm_compute. reflexivity.
Defined.

Lemma X20_empty_text_is_skipped_witness :
  run_loop (lab.client [lab.last]) 
    (Yield (lab.message_with_text (JStr EmptyString)) (GRaise ConnectionResetError))
    (lab.answering demo.ok_answer)
  = run_loop (lab.client [lab.last]) (GRaise ConnectionResetError)
      (lab.answering demo.ok_answer).
Proof.
  apply (X20_empty_text_is_skipped (RT := lab.runtime)). reflexivity.
Defined.

Lemma X21_text_that_is_no_string_witness :
  run_loop (lab.client [lab.last])
    (Yield (lab.message_with_text (JInt 5)) (GRaise ConnectionResetError))
    (lab.answering demo.ok_answer)
  = (Raise TypeError, logged (lab.answering demo.ok_answer) [EvSearch lab.last]).
Proof.
  apply (X21_text_that_is_no_string (RT := lab.runtime) (lab.client [lab.last])
           (lab.message_with_text (JInt 5)) (GRaise ConnectionResetError)
           (lab.answering demo.ok_answer)).
  - reflexivity.
  - discriminate.
Defined.
